(** * NormCap capture window (normcap/gui/window.py)

    A shallow embedding of the fullscreen capture window: the mouse driven
    selection of a rectangle, the Escape key, the one-shot positioning
    workaround for Wayland sessions, the construction of a window from a
    screen descriptor and the painting of the overlay layer.

    Python attributes of [self] are fields of a record that is threaded
    through the handlers.  Calls into the toolkit (redraw requests, signal
    emissions, D-Bus calls, painter commands) are recorded, in program order,
    in a trace of effects.  A raised exception ends a handler and keeps the
    state and the trace reached so far. *)

From Stdlib Require Import ZArith List String Ascii Bool Lia.
From Stdlib Require Import Floats.SpecFloat.
Import ListNotations.
Open Scope string_scope.
Open Scope list_scope.
Open Scope Z_scope.

Set Implicit Arguments.

(** ** Python floats

    A Python [float] is an IEEE 754 binary64 number; the Standard Library's
    [spec_float] with precision 53 and maximal exponent 1024 is that format. *)
Module PyFloat.

Definition float := spec_float.
Definition prec : Z := 53.
Definition emax : Z := 1024.

(** [float(n)], exact for [|n| < 2^53] and rounded to nearest even beyond. *)
Definition of_int (n : Z) : float := binary_normalize prec emax n 0 false.

Definition mul (x y : float) : float := SFmul prec emax x y.
Definition div (x y : float) : float := SFdiv prec emax x y.

(** The integer part of a finite float, rounded towards zero. *)
Definition trunc (x : float) : Z :=
  match x with
  | S754_finite s m e =>
      let v := match e with
               | Zneg p => Z.shiftr (Zpos m) (Zpos p)
               | _ => Z.shiftl (Zpos m) e
               end in
      if s then - v else v
  | _ => 0
  end.

Definition is_positive (x : float) : bool :=
  SFltb (S754_zero false) x.

End PyFloat.

Definition float : Type := PyFloat.float.

(** ** Qt value types used by the window *)

(** [QtCore.QPoint]; [QPoint()] is the null point (0, 0). *)
Record QPoint := mkQPoint { px : Z; py : Z }.

Definition QPoint_null : QPoint := mkQPoint 0 0.

Record QSize := mkQSize { sz_width : Z; sz_height : Z }.

(** [QtCore.QRect] stores its two corners [x1, y1, x2, y2] (Qt 6,
    qrect.h).  [QRect(topLeft, bottomRight)] stores the two points as they
    are given. *)
Record QRect := mkQRect { x1 : Z; y1 : Z; x2 : Z; y2 : Z }.

Definition QRect_of_points (topLeft bottomRight : QPoint) : QRect :=
  mkQRect (px topLeft) (py topLeft) (px bottomRight) (py bottomRight).

(** [QRect::normalized()] of Qt 6 (qrect.cpp): a corner pair in descending
    order is swapped, and "the corners are at different coordinates after
    the swapping":
<<
    r = this rectangle;
    if (x2 < x1) { r.x1 = x2 + 1; r.x2 = x1 - 1; }
    if (y2 < y1) { r.y1 = y2 + 1; r.y2 = y1 - 1; }
    return r;
>> *)
Definition normalized (r : QRect) : QRect :=
  let '(a, c) := if x2 r <? x1 r then (x2 r + 1, x1 r - 1)
                 else (x1 r, x2 r) in
  let '(b, d) := if y2 r <? y1 r then (y2 r + 1, y1 r - 1)
                 else (y1 r, y2 r) in
  mkQRect a b c d.

(** [QRect.getCoords()] as PySide6 returns it: the tuple (x1, y1, x2, y2). *)
Definition getCoords (r : QRect) : Z * Z * Z * Z :=
  (x1 r, y1 r, x2 r, y2 r).

Definition QRect_right (r : QRect) : Z := x2 r.
Definition QRect_top (r : QRect) : Z := y1 r.

(** A [QImage], reduced to its pixel size. *)
Record QImage := mkQImage { img_width : Z; img_height : Z }.

Inductive Key := Key_Escape | Key_other (code : Z).

Inductive MouseButton := LeftButton | RightButton | MiddleButton | NoButton.

Inductive QEventType := ActivationChange | WindowStateChange | EventType_other (code : Z).

Definition Key_eqb (a b : Key) : bool :=
  match a, b with
  | Key_Escape, Key_Escape => true
  | Key_other m, Key_other n => m =? n
  | _, _ => false
  end.

Definition MouseButton_eqb (a b : MouseButton) : bool :=
  match a, b with
  | LeftButton, LeftButton | RightButton, RightButton
  | MiddleButton, MiddleButton | NoButton, NoButton => true
  | _, _ => false
  end.

Definition QEventType_eqb (a b : QEventType) : bool :=
  match a, b with
  | ActivationChange, ActivationChange => true
  | WindowStateChange, WindowStateChange => true
  | EventType_other m, EventType_other n => m =? n
  | _, _ => false
  end.

(** ** The models of normcap.gui.models and normcap.gui.settings *)

(** Modelled from the spec: the class [Rect] of normcap/gui/models.py, which
    window.py imports.  The window builds it positionally from
    [QRect.getCoords()], so its fields are, in order, left, top, right and
    bottom. *)
Record Rect := mkRect { left : Z; top : Z; right : Z; bottom : Z }.

Definition Rect_of_coords (c : Z * Z * Z * Z) : Rect :=
  let '(l, t, r, b) := c in mkRect l t r b.

(** Modelled from the spec: [Rect.scaled] of normcap/gui/models.py ("supports
    uniform scaling by a factor to convert between the two spaces"): every
    coordinate is multiplied by the factor, as a float, and brought back to
    an integer pixel coordinate. *)
Definition scale_coord (v : Z) (factor : float) : Z :=
  PyFloat.trunc (PyFloat.mul (PyFloat.of_int v) factor).

Definition Rect_scaled (r : Rect) (factor : float) : Rect :=
  mkRect (scale_coord (left r) factor) (scale_coord (top r) factor)
         (scale_coord (right r) factor) (scale_coord (bottom r) factor).

(** Modelled from the spec: the enumeration [CaptureMode] of
    normcap/gui/models.py ("capture mode (enumeration: raw-text vs.
    parsed/structured)"). *)
Inductive CaptureMode := RAW | PARSE.

(** Modelled from the spec: the enumeration [DesktopEnvironment] of
    normcap/gui/models.py ("an enumeration of known desktop environments").
    window.py names GNOME, KDE and UNITY; [OTHER] stands for every other
    member. *)
Inductive DesktopEnvironment := OTHER | GNOME | KDE | UNITY.

Definition DesktopEnvironment_eqb (a b : DesktopEnvironment) : bool :=
  match a, b with
  | OTHER, OTHER | GNOME, GNOME | KDE, KDE | UNITY, UNITY => true
  | _, _ => false
  end.

(** Modelled from the spec: the class [Screen] of normcap/gui/models.py
    ("display index, logical rectangle, captured image, pixel device
    ratio").  [width] and [height] are the logical size that the attributes
    [screen.width] and [screen.height] return; [screenshot] is [None] when
    the captured image is absent, that is, when Python's [not screenshot]
    holds. *)
Record Screen := mkScreen {
  index : Z;
  rect : Rect;
  width : Z;
  height : Z;
  screenshot : option QImage;
  device_pixel_ratio : float
}.

(** [Settings] is a key-value store; [value s key] is [None] where Python
    gets [None] for a key that has no value. *)
Definition Settings := string -> option string.

Definition value (s : Settings) (key : string) : option string := s key.

(** [str(x)] for a settings value: [str(None)] is the text None. *)
Definition py_str (v : option string) : string :=
  match v with Some s => s | None => "None" end.

(** [s.upper()], for ASCII texts: the letters a to z are mapped to A to Z and
    every other character is kept. *)
Definition upper_ascii (c : ascii) : ascii :=
  let n := nat_of_ascii c in
  if (andb (Nat.leb 97 n) (Nat.leb n 122)) then ascii_of_nat (n - 32) else c.

Fixpoint upper (s : string) : string :=
  match s with
  | EmptyString => EmptyString
  | String c rest => String (upper_ascii c) (upper rest)
  end.

(** ** Exceptions, signals and effects *)

Inductive Exn :=
| ValueError (msg : string)
| TypeError (msg : string)
| ZeroDivisionError
| KeyError (key : string)
| OSError.

(** The signals of [Communicate], with their payloads. *)
Inductive Signal :=
| on_esc_key_pressed
| on_region_selected (payload : Rect * Z)
| on_window_positioned.

Inductive LogLevel := DEBUG | WARNING | ERROR.

(** The text lines of the debug display, kept as the values they format. *)
Inductive DebugText :=
| TxtQScreen (screen_size : Z * Z)
| TxtImage (screenshot_size : Z * Z)
| TxtPosQScreen (selection : Rect)
| TxtPosImage (selection_scaled : Rect)
| TxtScaleFactor (f : float)
| TxtDPR (f : float).

Inductive PaintCmd :=
| PainterBegin
| SetPen (pen_color : string)
| SetPenDashLine (pen_color : string) (pen_width : Z)
| DrawText (x y : Z) (text : DebugText)
| DrawRect (r : QRect)
| IconPaint (icon : string) (x y w h : Z)
| PainterEnd.

(** What a handler does to the world outside the window's own attributes. *)
Inductive Effect :=
| Super (handler : string)            (* super().handler(event) *)
| Update                              (* self.update() *)
| Emit (s : Signal)                   (* self.com.signal.emit(...) *)
| SetFocus                            (* self.setFocus() *)
| Log (level : LogLevel) (msg : string)
| TempFileCreate                      (* the script file exists *)
| TempFileWrite (target : Rect)       (* the KWin script is written *)
| TempFileUnlink
| DBusCall (service method : string) (target : Rect)
| UiLayerResize (size : QSize)        (* self.ui_layer.resize(...) *)
| SetPixmap (img : QImage)            (* self.image_layer.setPixmap(...) *)
| Painter (c : PaintCmd)
| QtCall (name : string)              (* any other toolkit call *)
| Uncaught (e : Exn).                 (* an exception left a handler *)

(** ** The window *)

(** The attributes of [UiLayerLabel]. *)
Record UiLayerLabel := mkUiLayerLabel {
  ui_color : string;
  draw_debug_infos : bool
}.

(** The attributes of [Window].  A [QColor] is kept as the text it was built
    from. *)
Record Window := mkWindow {
  settings : Settings;
  screen_ : Screen;
  color : string;
  is_positioned : bool;
  selection_start : QPoint;
  selection_end : QPoint;
  is_selecting : bool;
  scale_factor : float;
  ui_layer : UiLayerLabel
}.

Definition set_is_positioned (b : bool) (w : Window) : Window :=
  mkWindow (settings w) (screen_ w) (color w) b (selection_start w)
           (selection_end w) (is_selecting w) (scale_factor w) (ui_layer w).

Definition set_selection_start (p : QPoint) (w : Window) : Window :=
  mkWindow (settings w) (screen_ w) (color w) (is_positioned w) p
           (selection_end w) (is_selecting w) (scale_factor w) (ui_layer w).

Definition set_selection_end (p : QPoint) (w : Window) : Window :=
  mkWindow (settings w) (screen_ w) (color w) (is_positioned w)
           (selection_start w) p (is_selecting w) (scale_factor w) (ui_layer w).

Definition set_is_selecting (b : bool) (w : Window) : Window :=
  mkWindow (settings w) (screen_ w) (color w) (is_positioned w)
           (selection_start w) (selection_end w) b (scale_factor w) (ui_layer w).

(** ** The handler monad: state, trace and exceptions *)

Definition M (A : Type) : Type := Window -> Window * list Effect * (Exn + A).

Definition ret {A} (a : A) : M A := fun w => (w, [], inr a).

Definition bind {A B} (c : M A) (k : A -> M B) : M B :=
  fun w =>
    match c w with
    | (w1, t1, inl e) => (w1, t1, inl e)
    | (w1, t1, inr a) =>
        match k a w1 with
        | (w2, t2, r) => (w2, t1 ++ t2, r)
        end
    end.

Definition get : M Window := fun w => (w, [], inr w).
Definition modify (f : Window -> Window) : M unit := fun w => (f w, [], inr tt).
Definition tell (e : Effect) : M unit := fun w => (w, [e], inr tt).
Definition raise {A} (e : Exn) : M A := fun w => (w, [], inl e).

(** [when c m] is the Python statement [if c: m]. *)
Definition when (c : bool) (m : M unit) : M unit := if c then m else ret tt.

Declare Scope monad_scope.
Delimit Scope monad_scope with monad.
Notation "x <- c ;; k" := (bind c (fun x => k))
  (at level 61, c at next level, right associativity) : monad_scope.
Notation "c ;; k" := (bind c (fun _ => k))
  (at level 61, right associativity) : monad_scope.
Open Scope monad_scope.

Definition final {A} (r : Window * list Effect * (Exn + A)) : Window := fst (fst r).
Definition trace {A} (r : Window * list Effect * (Exn + A)) : list Effect := snd (fst r).
Definition outcome {A} (r : Window * list Effect * (Exn + A)) : Exn + A := snd r.

(** The signals emitted and the redraws requested in a trace. *)
Fixpoint emitted (t : list Effect) : list Signal :=
  match t with
  | [] => []
  | Emit s :: rest => s :: emitted rest
  | _ :: rest => emitted rest
  end.

Fixpoint redraws (t : list Effect) : nat :=
  match t with
  | [] => O
  | Update :: rest => S (redraws rest)
  | _ :: rest => redraws rest
  end.

(** [a / b] on Python integers: the float nearest to the quotient, and
    [ZeroDivisionError] for a zero divisor.  (Both operands are sizes in
    pixels, far below 2^53, so they convert to floats exactly.) *)
Definition py_truediv (a b : Z) : Exn + float :=
  if b =? 0 then inl ZeroDivisionError
  else inr (PyFloat.div (PyFloat.of_int a) (PyFloat.of_int b)).

(** [CaptureMode[name]]: the member of that name, [KeyError] for any other
    text. *)
Definition CaptureMode_getitem (name : string) : Exn + CaptureMode :=
  if String.eqb name "RAW" then inr RAW
  else if String.eqb name "PARSE" then inr PARSE
  else inl (KeyError name).

Definition lift {A} (r : Exn + A) : M A := fun w => (w, [], r).

(** ** What the handlers observe of the system

    The results of [system_info], of the import of QtDBus, of
    [sys.platform], of the session bus and of the file system, as one
    activation sees them.  An operation on the script file that fails
    raises [OSError]. *)
Record SystemInfo := mkSystemInfo {
  display_manager_is_wayland : bool;
  desktop_environment : DesktopEnvironment;
  HAS_QTDBUS : bool;
  platform_is_linux : bool;            (* sys.platform == "linux" *)
  bus_isConnected : bool;
  interface_isValid : bool;
  call_errorName : string -> bool;     (* the reply to a method has an error name *)
  tempfile_create_fails : bool;        (* NamedTemporaryFile(...) raises *)
  tempfile_write_fails : bool;         (* script_file.write(...) or the close raises *)
  unlink_fails : bool                  (* Path(...).unlink() raises *)
}.

Definition _move_active_window_to_position_on_gnome
    (sys : SystemInfo) (screen_rect : Rect) : M unit :=
  if negb (HAS_QTDBUS sys) || negb (platform_is_linux sys) then
    raise (TypeError "QtDBus should only be called on Linux systems!")
  else
    when (negb (bus_isConnected sys)) (tell (Log ERROR "Not connected to dbus!"));;
    if interface_isValid sys then
      tell (DBusCall "org.gnome.Shell" "Eval" screen_rect);;
      when (call_errorName sys "Eval")
           (tell (Log ERROR "Failed move Window!");;
            tell (Log ERROR "x.errorMessage()"))
    else
      tell (Log WARNING "Invalid dbus interface on Gnome").

Definition _move_active_window_to_position_on_kde
    (sys : SystemInfo) (screen_rect : Rect) : M unit :=
  if negb (HAS_QTDBUS sys) || negb (platform_is_linux sys) then
    raise (TypeError "QtDBus should only be called on Linux systems!")
  else
    (if tempfile_create_fails sys then raise OSError else tell TempFileCreate);;
    (if tempfile_write_fails sys then raise OSError
     else tell (TempFileWrite screen_rect));;
    when (negb (bus_isConnected sys)) (tell (Log ERROR "Not connected to dbus!"));;
    (if interface_isValid sys then
       tell (DBusCall "org.kde.KWin" "loadScript" screen_rect);;
       tell (DBusCall "org.kde.KWin" "start" screen_rect);;
       when (call_errorName sys "loadScript" || call_errorName sys "start")
            (tell (Log ERROR "Failed move Window!");;
             tell (Log ERROR "x.errorMessage(), y.errorMessage()"))
     else
       tell (Log WARNING "Invalid dbus interface on KDE"));;
    (if unlink_fails sys then raise OSError else tell TempFileUnlink).

(** ** Construction *)

Definition get_scale_factor (screen : Screen) : Exn + float :=
  match screenshot screen with
  | None => inl (ValueError "Screenshot image is missing!")
  | Some img => py_truediv (img_width img) (width screen)
  end.

(** [Window._get_scale_factor], on a window that exists. *)
Definition _get_scale_factor : M float :=
  w <- get;; lift (get_scale_factor (screen_ w)).

Definition UiLayerLabel_init (parent_color : string) : UiLayerLabel :=
  mkUiLayerLabel parent_color false.

(** [Window.__init__].  The attributes are assigned in the order of the
    source; [_get_scale_factor] is the one step that can raise, and then no
    window comes into being. *)
Definition Window_init (screen : Screen) (settings : Settings)
  : list Effect * (Exn + Window) :=
  let t0 := [QtCall "QMainWindow.__init__";
             Log DEBUG "Create window for screen %s";
             QtCall "setWindowTitle"; QtCall "setWindowIcon";
             QtCall "setAnimated"; QtCall "setEnabled"] in
  let color := py_str (value settings "color") in
  match get_scale_factor screen with
  | inl e => (t0, inl e)
  | inr f =>
      (t0 ++ [QtCall "image_layer.setScaledContents"; QtCall "setCentralWidget";
              QtCall "ui_layer.setObjectName"; QtCall "ui_layer.setStyleSheet";
              QtCall "ui_layer.setCursor"; QtCall "ui_layer.setScaledContents";
              QtCall "ui_layer.setGeometry"; QtCall "ui_layer.raise_"],
       inr (mkWindow settings screen color false QPoint_null QPoint_null false f
                     (UiLayerLabel_init color)))
  end.

(** ** The methods of [Window] *)

Definition _draw_background_image : M unit :=
  w <- get;;
  match screenshot (screen_ w) with
  | None => raise (ValueError "Screenshot image is missing!")
  | Some img => tell (SetPixmap img)
  end.

Definition _position_windows_on_wayland (sys : SystemInfo) : M unit :=
  tell SetFocus;;
  tell (Log DEBUG "Move window %s to %s");;
  w <- get;;
  (if DesktopEnvironment_eqb (desktop_environment sys) GNOME then
     _move_active_window_to_position_on_gnome sys (rect (screen_ w))
   else if DesktopEnvironment_eqb (desktop_environment sys) KDE then
     _move_active_window_to_position_on_kde sys (rect (screen_ w))
   else ret tt);;
  modify (set_is_positioned true).

Definition set_fullscreen (sys : SystemInfo) : M unit :=
  tell (Log DEBUG "Set window of screen %s to fullscreen");;
  tell (QtCall "setWindowFlags");;
  tell (QtCall "setFocusPolicy");;
  tell (QtCall "setGeometry");;
  when (negb (DesktopEnvironment_eqb (desktop_environment sys) UNITY))
       (tell (QtCall "setMinimumSize");; tell (QtCall "setMaximumSize"));;
  tell (QtCall "showFullScreen").

Definition keyPressEvent (key : Key) : M unit :=
  tell (Super "keyPressEvent");;
  when (Key_eqb key Key_Escape)
       (w <- get;;
        if is_selecting w then
          modify (set_is_selecting false);;
          tell Update
        else
          tell (Emit on_esc_key_pressed)).

(** The mouse handlers get the position as the integer point
    [event.position().toPoint()]. *)
Definition mousePressEvent (button : MouseButton) (pos : QPoint) : M unit :=
  tell (Super "mousePressEvent");;
  when (MouseButton_eqb button LeftButton)
       (modify (set_selection_start pos);;
        modify (set_selection_end pos);;
        modify (set_is_selecting true);;
        tell Update).

Definition mouseMoveEvent (pos : QPoint) : M unit :=
  tell (Super "mouseMoveEvent");;
  modify (set_selection_end pos);;
  tell Update.

Definition mouseReleaseEvent (button : MouseButton) (pos : QPoint) : M unit :=
  tell (Super "mouseReleaseEvent");;
  w <- get;;
  if negb (MouseButton_eqb button LeftButton) || negb (is_selecting w) then
    ret tt
  else
    modify (set_selection_end pos);;
    w <- get;;
    let selected_rect :=
      normalized (QRect_of_points (selection_start w) (selection_end w)) in
    modify (set_selection_start QPoint_null);;
    modify (set_selection_end QPoint_null);;
    modify (set_is_selecting false);;
    tell Update;;
    let selected_coords := getCoords selected_rect in
    w <- get;;
    tell (Emit (on_region_selected
                  (Rect_scaled (Rect_of_coords selected_coords) (scale_factor w),
                   index (screen_ w)))).

Definition changeEvent (type : QEventType) (sys : SystemInfo)
    (isActiveWindow : bool) : M unit :=
  tell (Super "changeEvent");;
  w <- get;;
  when (QEventType_eqb type ActivationChange
        && display_manager_is_wayland sys
        && isActiveWindow
        && negb (is_positioned w))
       (_position_windows_on_wayland sys;;
        tell (Emit on_window_positioned)).

(** [size] is what [self.size()] returns when the handler runs. *)
Definition resizeEvent (size : QSize) : M unit :=
  tell (Super "resizeEvent");;
  tell (UiLayerResize size).

Definition showEvent : M unit :=
  tell (Super "showEvent");;
  _draw_background_image.

(** ** The overlay layer

    [UiLayerLabel] keeps no selection state of its own: its methods read the
    parent window, which is the state of the monad. *)

Definition _draw_debug_infos (rect : QRect) : M unit :=
  parent_window <- get;;
  let normalized_coords := getCoords (normalized rect) in
  let selection := Rect_of_coords normalized_coords in
  let scale_factor := scale_factor parent_window in
  let selection_scaled := Rect_scaled selection scale_factor in
  let x := 25 in
  let y := 25 in
  let screen_size :=
    (width (screen_ parent_window), height (screen_ parent_window)) in
  let screenshot_size :=
    match screenshot (screen_ parent_window) with
    | Some img => (img_width img, img_height img)
    | None => (-1, -1)
    end in
  tell (Painter (SetPen (ui_color (ui_layer parent_window))));;
  tell (Painter (DrawText x (y * 1) (TxtQScreen screen_size)));;
  tell (Painter (DrawText x (y * 2) (TxtImage screenshot_size)));;
  tell (Painter (DrawText x (y * 3) (TxtPosQScreen selection)));;
  tell (Painter (DrawText x (y * 4) (TxtPosImage selection_scaled)));;
  tell (Painter (DrawText x (y * 5) (TxtScaleFactor scale_factor)));;
  tell (Painter (DrawText x (y * 6)
                  (TxtDPR (device_pixel_ratio (screen_ parent_window))))).

Definition paintEvent : M unit :=
  tell (Super "paintEvent");;
  parent_window <- get;;
  let self := ui_layer parent_window in
  if negb (is_selecting parent_window || draw_debug_infos self) then
    ret tt
  else
    tell (Painter PainterBegin);;
    let rect := QRect_of_points (selection_start parent_window)
                                (selection_end parent_window) in
    let rect := normalized rect in
    when (draw_debug_infos self) (_draw_debug_infos rect);;
    if negb (is_selecting parent_window) then
      ret tt
    else
      tell (Painter (SetPenDashLine (ui_color self) 2));;
      tell (Painter (DrawRect rect));;
      let mode := py_str (value (settings parent_window) "mode") in
      m <- lift (CaptureMode_getitem (upper mode));;
      let mode_indicator :=
        match m with PARSE => ":parse" | RAW => ":raw" end in
      tell (Painter (IconPaint mode_indicator
                       (QRect_right rect - 24) (QRect_top rect - 30) 24 24));;
      tell (Painter PainterEnd).

(** ** Events and the event loop *)

(** An event, with what its handler reads from the toolkit and the system
    while it runs. *)
Inductive Event :=
| KeyPress (key : Key)
| MousePress (button : MouseButton) (pos : QPoint)
| MouseMove (pos : QPoint)
| MouseRelease (button : MouseButton) (pos : QPoint)
| Change (type : QEventType) (sys : SystemInfo) (isActiveWindow : bool)
| Resize (size : QSize)
| Show
| PaintUiLayer.

Definition handle (ev : Event) : M unit :=
  match ev with
  | KeyPress key => keyPressEvent key
  | MousePress button pos => mousePressEvent button pos
  | MouseMove pos => mouseMoveEvent pos
  | MouseRelease button pos => mouseReleaseEvent button pos
  | Change type sys active => changeEvent type sys active
  | Resize size => resizeEvent size
  | Show => showEvent
  | PaintUiLayer => paintEvent
  end.

(** One turn of the event loop.  An exception that leaves a handler is
    reported and the loop goes on with the window as the handler left it. *)
Definition step (w : Window) (ev : Event) : Window * list Effect :=
  match handle ev w with
  | (w', t, inr _) => (w', t)
  | (w', t, inl e) => (w', t ++ [Uncaught e])
  end.

Fixpoint run (w : Window) (evs : list Event) : Window * list Effect :=
  match evs with
  | [] => (w, [])
  | ev :: rest =>
      let '(w1, t1) := step w ev in
      let '(w2, t2) := run w1 rest in
      (w2, t1 ++ t2)
  end.

(** A drag: the left button goes down at [P0], the pointer moves through
    [moves], and the left button is released at [Pn]. *)
Definition drag (P0 : QPoint) (moves : list QPoint) (Pn : QPoint) : list Event :=
  MousePress LeftButton P0 :: map MouseMove moves ++ [MouseRelease LeftButton Pn].

(** The rectangle a window reports for a drag from [P0] to [Pn]. *)
Definition selected_region (w : Window) (P0 Pn : QPoint) : Rect * Z :=
  (Rect_scaled
     (Rect_of_coords (getCoords (normalized (QRect_of_points P0 Pn))))
     (scale_factor w),
   index (screen_ w)).

(** ** Sample values

    The screen of the specification's example (index 0, logical size
    1000 x 800, screenshot 2000 x 1600), and windows on it. *)
Definition example_screen (dpr : float) : Screen :=
  mkScreen 0 (mkRect 0 0 1000 800) 1000 800 (Some (mkQImage 2000 1600)) dpr.

Definition sample_settings (mode : string) : Settings :=
  fun key =>
    if String.eqb key "mode" then Some mode
    else if String.eqb key "color" then Some "#FF2E88"
    else None.

Definition idle_window : Window :=
  mkWindow (sample_settings "parse") (example_screen (PyFloat.of_int 1))
           "#FF2E88" false QPoint_null QPoint_null false (PyFloat.of_int 2)
           (UiLayerLabel_init "#FF2E88").

(** [idle_window] in the middle of a drag from (100, 100) to (300, 250). *)
Definition dragging_window : Window :=
  set_is_selecting true
    (set_selection_end (mkQPoint 300 250)
       (set_selection_start (mkQPoint 100 100) idle_window)).

(** ** Observing the positioning workaround in a trace *)

(** The effects of the positioning workaround: the focus request, the
    script file, the calls on the session bus and the signal that ends it. *)
Definition is_positioning (e : Effect) : bool :=
  match e with
  | SetFocus | TempFileCreate | TempFileWrite _ | TempFileUnlink
  | DBusCall _ _ _ | Emit on_window_positioned => true
  | _ => false
  end.

Definition positioning_effects (t : list Effect) : list Effect :=
  filter is_positioning t.

(** How often a trace reports the end of the workaround. *)
Definition positioned_count (t : list Effect) : nat :=
  List.length (filter (fun e => match e with
                           | Emit on_window_positioned => true
                           | _ => false
                           end) t).

(** A Wayland session on a desktop environment without a workaround. *)
Definition wayland_other : SystemInfo :=
  mkSystemInfo true OTHER true true true true (fun _ => false) false false false.

(** A Gnome session on Wayland in which QtDBus could not be imported. *)
Definition wayland_gnome_no_dbus : SystemInfo :=
  mkSystemInfo true GNOME false true true true (fun _ => false) false false false.

(** A Gnome session on Wayland with a working session bus. *)
Definition wayland_gnome : SystemInfo :=
  mkSystemInfo true GNOME true true true true (fun _ => false) false false false.

(** A screen whose logical width is negative, one whose logical width is
    zero, and one without a captured image. *)
Definition negative_width_screen : Screen :=
  mkScreen 0 (mkRect 0 0 (-1000) 800) (-1000) 800 (Some (mkQImage 2000 1600))
           (PyFloat.of_int 1).

Definition zero_width_screen : Screen :=
  mkScreen 0 (mkRect 0 0 0 800) 0 800 (Some (mkQImage 2000 1600))
           (PyFloat.of_int 1).

Definition blind_screen : Screen :=
  mkScreen 0 (mkRect 0 0 1000 800) 1000 800 None (PyFloat.of_int 1).

(** [dragging_window] with another value under the settings key mode. *)
Definition dragging_window_with_mode (mode : string) : Window :=
  mkWindow (sample_settings mode) (screen_ dragging_window)
           (color dragging_window) (is_positioned dragging_window)
           (selection_start dragging_window) (selection_end dragging_window)
           (is_selecting dragging_window) (scale_factor dragging_window)
           (ui_layer dragging_window).

(** A window that shows the debug text, on a screen without an image. *)
Definition blind_debug_window : Window :=
  mkWindow (sample_settings "parse") blind_screen "#FF2E88" false
           QPoint_null QPoint_null false (PyFloat.of_int 2)
           (mkUiLayerLabel "#FF2E88" true).

(** ** Further observations on traces and events *)

(** The painter commands and the exceptions reported in a trace. *)
Fixpoint painted (t : list Effect) : list PaintCmd :=
  match t with
  | [] => []
  | Painter c :: rest => c :: painted rest
  | _ :: rest => painted rest
  end.

Fixpoint uncaught (t : list Effect) : list Exn :=
  match t with
  | [] => []
  | Uncaught e :: rest => e :: uncaught rest
  | _ :: rest => uncaught rest
  end.

(** The guard of [changeEvent]. *)
Definition activation_applies (type : QEventType) (sys : SystemInfo)
    (isActiveWindow : bool) (w : Window) : bool :=
  QEventType_eqb type ActivationChange
  && display_manager_is_wayland sys
  && isActiveWindow
  && negb (is_positioned w).

(** The desktop environments for which a helper is called, and the guard
    at the head of both helpers. *)
Definition has_workaround (sys : SystemInfo) : bool :=
  DesktopEnvironment_eqb (desktop_environment sys) GNOME
  || DesktopEnvironment_eqb (desktop_environment sys) KDE.

Definition qtdbus_usable (sys : SystemInfo) : bool :=
  HAS_QTDBUS sys && platform_is_linux sys.

(** The window as a left release at [pos] leaves it after a drag. *)
Definition after_release (w : Window) : Window :=
  set_is_selecting false
    (set_selection_end QPoint_null (set_selection_start QPoint_null w)).

(** The window as a left press at [pos] leaves it. *)
Definition after_press (pos : QPoint) (w : Window) : Window :=
  set_is_selecting true (set_selection_end pos (set_selection_start pos w)).

(** Releases of any buttons at any points, as events. *)
Definition releases (rels : list (MouseButton * QPoint)) : list Event :=
  map (fun r => MouseRelease (fst r) (snd r)) rels.

(** A Gnome session on Wayland whose session bus is down and whose shell
    interface is invalid. *)
Definition wayland_gnome_bus_down : SystemInfo :=
  mkSystemInfo true GNOME true true false false (fun _ => true) false false false.

(** A KDE session on Wayland whose session bus is down and whose scripting
    interface is invalid; the script file can be written and removed. *)
Definition wayland_kde_bus_down : SystemInfo :=
  mkSystemInfo true KDE true true false false (fun _ => true) false false false.

(** A KDE session on Wayland with a working session bus. *)
Definition wayland_kde : SystemInfo :=
  mkSystemInfo true KDE true true true true (fun _ => false) false false false.

(** The calls on the session bus and the operations on the script file in
    a trace. *)
Definition bus_calls (t : list Effect) : list Effect :=
  filter (fun e => match e with DBusCall _ _ _ => true | _ => false end) t.

Definition file_ops (t : list Effect) : list Effect :=
  filter (fun e => match e with
                   | TempFileCreate | TempFileWrite _ | TempFileUnlink => true
                   | _ => false
                   end) t.

(** The text lines in a list of painter commands, with their positions. *)
Fixpoint texts (cs : list PaintCmd) : list (Z * Z * DebugText) :=
  match cs with
  | [] => []
  | DrawText x y t :: rest => (x, y, t) :: texts rest
  | _ :: rest => texts rest
  end.

(** How often a trace requests the focus, and how often it reports an
    exception of a positioning helper ([TypeError] or [OSError]; no other
    handler raises either). *)
Definition focus_requests (t : list Effect) : nat :=
  List.length (filter (fun e => match e with SetFocus => true | _ => false end) t).

Definition failed_attempts (t : list Effect) : nat :=
  List.length (filter (fun e => match e with
                                | Uncaught (TypeError _) | Uncaught OSError => true
                                | _ => false
                                end) t).

(** The exception with which the helper of the desktop environment ends,
    if it ends with one. *)
Definition helper_failure (sys : SystemInfo) : option Exn :=
  if has_workaround sys then
    if negb (qtdbus_usable sys) then
      Some (TypeError "QtDBus should only be called on Linux systems!")
    else if DesktopEnvironment_eqb (desktop_environment sys) KDE
            && (tempfile_create_fails sys || tempfile_write_fails sys
                || unlink_fails sys)
    then Some OSError
    else None
  else None.

(** A KDE session on Wayland with a working session bus, on which the
    script file cannot be removed. *)
Definition wayland_kde_unlink_fails : SystemInfo :=
  mkSystemInfo true KDE true true true true (fun _ => false) false false true.

(** The axis-aligned rectangle spanned by two points, as the specification
    words the normalization of a selection: from the smaller to the larger
    coordinate on each axis. *)
Definition axis_aligned_span (P0 Pn : QPoint) : Rect :=
  mkRect (Z.min (px P0) (px Pn)) (Z.min (py P0) (py Pn))
         (Z.max (px P0) (px Pn)) (Z.max (py P0) (py Pn)).

(** * Properties *)

(** ** General facts about traces and the event loop *)

Lemma emitted_app (t1 t2 : list Effect) :
  emitted (t1 ++ t2) = emitted t1 ++ emitted t2.
Proof.
  induction t1 as [|e t1 IH]; simpl; [reflexivity|].
  destruct e; simpl; rewrite ?IH; reflexivity.
Qed.

Lemma run_app (evs1 evs2 : list Event) (w : Window) :
  run w (evs1 ++ evs2) =
  (fst (run (fst (run w evs1)) evs2),
   snd (run w evs1) ++ snd (run (fst (run w evs1)) evs2)).
Proof.
  revert w; induction evs1 as [|ev evs1 IH]; intro w; simpl.
  - destruct (run w evs2); reflexivity.
  - destruct (step w ev) as [w1 t1]. rewrite IH.
    destruct (run w1 evs1) as [w2 t2]; simpl.
    destruct (run w2 evs2) as [w3 t3]; simpl.
    now rewrite app_assoc.
Qed.

Lemma run_cons (ev : Event) (evs : list Event) (w : Window) :
  run w (ev :: evs) =
  (fst (run (fst (step w ev)) evs),
   snd (step w ev) ++ snd (run (fst (step w ev)) evs)).
Proof.
  simpl. destruct (step w ev) as [w1 t1]; simpl.
  destruct (run w1 evs); reflexivity.
Qed.

(** Pointer moves only rewrite the end point of the selection. *)
Lemma run_moves (moves : list QPoint) (w : Window) :
  let r := run w (map MouseMove moves) in
  selection_start (fst r) = selection_start w /\
  is_selecting (fst r) = is_selecting w /\
  scale_factor (fst r) = scale_factor w /\
  screen_ (fst r) = screen_ w /\
  emitted (snd r) = [].
Proof.
  revert w; induction moves as [|p moves IH]; intro w; simpl.
  - repeat split.
  - specialize (IH (set_selection_end p w)).
    unfold step; simpl.
    destruct (run (set_selection_end p w) (map MouseMove moves)) as [w2 t2].
    simpl in *. exact IH.
Qed.

(** ** Selecting a region *)


(** C10.  A press or a release of a button other than the left one leaves
    the window as it was (drag flag, start and end point included), requests
    no redraw and emits no signal: the handler only calls its parent class. *)
Theorem non_left_button_is_ignored (w : Window) (button : MouseButton)
    (pos : QPoint) (Hbutton : button <> LeftButton) :
  mousePressEvent button pos w = (w, [Super "mousePressEvent"], inr tt) /\
  mouseReleaseEvent button pos w = (w, [Super "mouseReleaseEvent"], inr tt) /\
  emitted (trace (mousePressEvent button pos w)) = [] /\
  emitted (trace (mouseReleaseEvent button pos w)) = [].
Proof.
  assert (Hb : MouseButton_eqb button LeftButton = false)
    by (destruct button; [congruence| reflexivity ..]).
  assert (Hp : mousePressEvent button pos w = (w, [Super "mousePressEvent"], inr tt)).
  { unfold mousePressEvent, when. rewrite Hb. reflexivity. }
  assert (Hr : mouseReleaseEvent button pos w = (w, [Super "mouseReleaseEvent"], inr tt)).
  { unfold mouseReleaseEvent, bind, tell, get. rewrite Hb. reflexivity. }
  rewrite Hp, Hr. repeat split.
Qed.

Lemma non_left_button_is_ignored_witness :
  RightButton <> LeftButton /\
  mouseReleaseEvent RightButton (mkQPoint 7 9) dragging_window
  = (dragging_window, [Super "mouseReleaseEvent"], inr tt) /\
  is_selecting dragging_window = true.
Proof.
  split; [discriminate|]. split; [|reflexivity].
  apply (non_left_button_is_ignored dragging_window (mkQPoint 7 9)
           (button := RightButton)).
  discriminate.
Defined.

(** ** The Escape key *)

(** C3, as the claim has it, fails: Escape during a drag clears the drag
    flag but does not reset the stored start and end points. *)
Lemma escape_does_not_reset_points_counterexample :
  is_selecting dragging_window = true /\
  ~ (is_selecting (final (keyPressEvent Key_Escape dragging_window)) = false /\
     selection_start (final (keyPressEvent Key_Escape dragging_window)) = QPoint_null /\
     selection_end (final (keyPressEvent Key_Escape dragging_window)) = QPoint_null).
Proof.
  split; [reflexivity|]. intros (_ & H & _). discriminate H.
Qed.

(** C3, amended.  Escape during a drag clears the drag flag and nothing
    else (the stored start and end points stay as they are), requests one
    redraw and emits no signal; Escape with no drag emits exactly one
    [on_esc_key_pressed], which has no payload, requests no redraw and
    leaves the window as it was. *)
Theorem escape_key_semantics (w : Window) :
  let r := keyPressEvent Key_Escape w in
  outcome r = inr tt /\
  if is_selecting w then
    final r = set_is_selecting false w /\
    is_selecting (final r) = false /\
    selection_start (final r) = selection_start w /\
    selection_end (final r) = selection_end w /\
    redraws (trace r) = 1%nat /\
    emitted (trace r) = []
  else
    final r = w /\
    redraws (trace r) = 0%nat /\
    emitted (trace r) = [on_esc_key_pressed].
Proof.
  unfold keyPressEvent, bind, tell, get, modify, when. cbn [Key_eqb].
  destruct (is_selecting w) eqn:Hsel; cbn; repeat split.
Qed.

(** ** The positioning workaround *)

(** C2, as the claim has it, fails: on a Wayland session whose desktop
    environment is neither Gnome nor KDE the first activation of an
    unpositioned window does set the positioned flag and does emit
    [on_window_positioned]. *)
Lemma wayland_other_is_positioned_counterexample :
  display_manager_is_wayland wayland_other = true /\
  desktop_environment wayland_other <> GNOME /\
  desktop_environment wayland_other <> KDE /\
  is_positioned idle_window = false /\
  ~ (is_positioned
       (final (changeEvent ActivationChange wayland_other true idle_window)) = false /\
     emitted
       (trace (changeEvent ActivationChange wayland_other true idle_window)) = []).
Proof.
  repeat split; try discriminate. intros [H _]. discriminate H.
Qed.

(** C2, amended.  On a Wayland session whose desktop environment is neither
    Gnome nor KDE, the first activation of an unpositioned window requests
    the focus and calls nothing on the session bus; it then sets the
    positioned flag and emits [on_window_positioned] exactly once. *)
Theorem wayland_other_desktop_activation (w : Window) (sys : SystemInfo)
    (Hwayland : display_manager_is_wayland sys = true)
    (Hgnome : desktop_environment sys <> GNOME)
    (Hkde : desktop_environment sys <> KDE)
    (Hunpositioned : is_positioned w = false) :
  changeEvent ActivationChange sys true w
  = (set_is_positioned true w,
     [Super "changeEvent"; SetFocus; Log DEBUG "Move window %s to %s";
      Emit on_window_positioned],
     inr tt).
Proof.
  unfold changeEvent, _position_windows_on_wayland, bind, tell, get, modify, when.
  cbn [QEventType_eqb andb]. rewrite Hwayland, Hunpositioned. cbn [andb negb].
  destruct (desktop_environment sys); try congruence; reflexivity.
Qed.

Lemma wayland_other_desktop_activation_witness :
  display_manager_is_wayland wayland_other = true /\
  desktop_environment wayland_other <> GNOME /\
  desktop_environment wayland_other <> KDE /\
  is_positioned idle_window = false /\
  changeEvent ActivationChange wayland_other true idle_window
  = (set_is_positioned true idle_window,
     [Super "changeEvent"; SetFocus; Log DEBUG "Move window %s to %s";
      Emit on_window_positioned],
     inr tt).
Proof.
  split; [reflexivity|]. split; [discriminate|]. split; [discriminate|].
  split; [reflexivity|].
  apply (@wayland_other_desktop_activation idle_window wayland_other);
    [reflexivity | discriminate | discriminate | reflexivity].
Defined.

(** ** Frame properties of the handlers *)

Ltac unfold_handlers :=
  unfold handle, keyPressEvent, mousePressEvent, mouseMoveEvent,
    mouseReleaseEvent, changeEvent, resizeEvent, showEvent, paintEvent,
    _position_windows_on_wayland, _draw_background_image, _draw_debug_infos,
    _move_active_window_to_position_on_gnome,
    _move_active_window_to_position_on_kde,
    bind, tell, get, modify, ret, raise, when, lift.

Ltac split_branches :=
  repeat (cbn;
          match goal with
          | |- context [if ?b then _ else _] => destruct b eqn:?
          | |- context [match ?x with Some _ => _ | None => _ end] =>
              destruct x eqn:?
          | |- context [match ?x with inl _ => _ | inr _ => _ end] =>
              destruct x eqn:?
          | |- context [match ?x with RAW => _ | PARSE => _ end] =>
              destruct x eqn:?
          | |- context [match ?x with Key_Escape => _ | Key_other _ => _ end] =>
              destruct x eqn:?
          | |- context [match ?x with LeftButton => _ | _ => _ end] =>
              destruct x eqn:?
          | |- context [match ?x with ActivationChange => _ | _ => _ end] =>
              destruct x eqn:?
          | |- context [match ?x with OTHER => _ | _ => _ end] =>
              destruct x eqn:?
          end).

(** No handler writes the scale factor, the screen or the settings. *)
Lemma handle_keeps_construction_data (ev : Event) (w : Window) :
  scale_factor (final (handle ev w)) = scale_factor w /\
  screen_ (final (handle ev w)) = screen_ w /\
  settings (final (handle ev w)) = settings w.
Proof.
  destruct ev; unfold_handlers; split_branches; cbn; repeat split.
Qed.

(** Only [changeEvent] takes part in the positioning workaround. *)
Lemma handle_other_keeps_positioning (ev : Event) (w : Window) :
  (forall type sys active, ev <> Change type sys active) ->
  is_positioned (final (handle ev w)) = is_positioned w /\
  positioning_effects (trace (handle ev w)) = [].
Proof.
  intro Hev.
  destruct ev; try (exfalso; eapply Hev; reflexivity);
    unfold_handlers; split_branches; cbn; repeat split.
Qed.

Lemma positioning_effects_app (t1 t2 : list Effect) :
  positioning_effects (t1 ++ t2) = positioning_effects t1 ++ positioning_effects t2.
Proof. apply filter_app. Qed.

Lemma positioned_count_app (t1 t2 : list Effect) :
  positioned_count (t1 ++ t2) = (positioned_count t1 + positioned_count t2)%nat.
Proof. unfold positioned_count. now rewrite filter_app, length_app. Qed.

(** A positioned window ignores every later activation. *)
Lemma changeEvent_positioned (type : QEventType) (sys : SystemInfo)
    (active : bool) (w : Window) :
  is_positioned w = true ->
  changeEvent type sys active w = (w, [Super "changeEvent"], inr tt).
Proof.
  intro Hp. unfold changeEvent, bind, tell, get, when.
  rewrite Hp. cbn [negb]. rewrite andb_false_r. reflexivity.
Qed.

Ltac solve_in :=
  repeat match goal with
         | H : In _ _ |- _ => simpl in H
         | H : _ \/ _ |- _ => destruct H
         | H : False |- _ => contradiction
         | H : _ = DBusCall _ _ _ |- _ => discriminate H
         end.


(** ** The scale factor *)

Lemma run_keeps_construction_data (evs : list Event) (w : Window) :
  scale_factor (fst (run w evs)) = scale_factor w /\
  screen_ (fst (run w evs)) = screen_ w /\
  settings (fst (run w evs)) = settings w.
Proof.
  revert w; induction evs as [|ev evs IH]; intro w.
  - repeat split.
  - rewrite run_cons. cbn [fst].
    destruct (IH (fst (step w ev))) as (H1 & H2 & H3).
    rewrite H1, H2, H3.
    assert (Hs : fst (step w ev) = final (handle ev w)).
    { unfold step, final. destruct (handle ev w) as [[w' t] [e|u]]; reflexivity. }
    rewrite Hs. apply handle_keeps_construction_data.
Qed.

(** What construction yields, case by case. *)
Lemma Window_init_cases (screen : Screen) (st : Settings) :
  match screenshot screen with
  | None =>
      snd (Window_init screen st) = inl (ValueError "Screenshot image is missing!")
  | Some img =>
      if width screen =? 0 then
        snd (Window_init screen st) = inl ZeroDivisionError
      else
        snd (Window_init screen st)
        = inr (mkWindow st screen (py_str (value st "color")) false
                        QPoint_null QPoint_null false
                        (PyFloat.div (PyFloat.of_int (img_width img))
                                     (PyFloat.of_int (width screen)))
                        (UiLayerLabel_init (py_str (value st "color"))))
  end.
Proof.
  unfold Window_init, get_scale_factor, py_truediv.
  destruct (screenshot screen) as [img|]; [|reflexivity].
  destruct (width screen =? 0); reflexivity.
Qed.

(** C9.  The scale factor of a window is the screenshot's pixel width
    divided by the screen's logical width, computed once, at construction;
    no sequence of events changes it (nor the screen it was computed from),
    and the resize handler does nothing but resize the overlay layer to the
    window's size. *)
Theorem scale_factor_is_fixed (screen : Screen) (st : Settings) (w : Window)
    (Hinit : snd (Window_init screen st) = inr w) :
  (exists img,
      screenshot screen = Some img /\
      py_truediv (img_width img) (width screen) = inr (scale_factor w)) /\
  (forall evs : list Event,
      scale_factor (fst (run w evs)) = scale_factor w /\
      screen_ (fst (run w evs)) = screen) /\
  (forall (w' : Window) (ev : Event),
      scale_factor (final (handle ev w')) = scale_factor w') /\
  (forall (w' : Window) (sys : SystemInfo),
      final (set_fullscreen sys w') = w') /\
  (forall (w' : Window) (size : QSize),
      resizeEvent size w' = (w', [Super "resizeEvent"; UiLayerResize size], inr tt)).
Proof.
  pose proof (Window_init_cases screen st) as Hc.
  destruct (screenshot screen) as [img|] eqn:Himg; [|congruence].
  destruct (width screen =? 0) eqn:Hz; [congruence|].
  rewrite Hc in Hinit. injection Hinit as <-.
  split; [|split; [|split; [|split]]].
  - exists img. split; [reflexivity|]. unfold py_truediv. rewrite Hz. reflexivity.
  - intro evs.
    destruct (run_keeps_construction_data evs
                (mkWindow st screen (py_str (value st "color")) false
                   QPoint_null QPoint_null false
                   (PyFloat.div (PyFloat.of_int (img_width img))
                      (PyFloat.of_int (width screen)))
                   (UiLayerLabel_init (py_str (value st "color")))))
      as (H1 & H2 & _).
    split; [exact H1 | exact H2].
  - intros w' ev. apply handle_keeps_construction_data.
  - intros w' sys. unfold set_fullscreen, bind, tell, when.
    destruct (DesktopEnvironment_eqb (desktop_environment sys) UNITY); reflexivity.
  - reflexivity.
Qed.

Lemma scale_factor_is_fixed_witness :
  snd (Window_init (example_screen (PyFloat.of_int 1)) (sample_settings "parse"))
  = inr idle_window /\
  scale_factor
    (fst (run idle_window [Resize (mkQSize 500 400); Show; PaintUiLayer;
                           MousePress LeftButton (mkQPoint 1 2)]))
  = PyFloat.of_int 2.
Proof.
  split; [reflexivity|].
  destruct (@scale_factor_is_fixed (example_screen (PyFloat.of_int 1))
              (sample_settings "parse") idle_window eq_refl)
    as (_ & H & _).
  apply H.
Defined.

(** ** Construction and the screenshot *)

(** C5, as the claim has it, fails: a screen with a captured image and a
    negative logical width yields a window, and its scale factor (-2.0) is
    not strictly positive. *)
Lemma negative_scale_factor_counterexample :
  exists w : Window,
    snd (Window_init negative_width_screen (sample_settings "parse")) = inr w /\
    scale_factor w = PyFloat.of_int (-2) /\
    PyFloat.is_positive (scale_factor w) = false.
Proof.
  eexists. split; [reflexivity|]. split; reflexivity.
Qed.

(** C5, amended.  Construction fails exactly when the captured image is
    absent ([ValueError]) or the logical width is zero, where the ratio is
    undefined ([ZeroDivisionError]).  In every other case it yields a window
    whose scale factor is the screenshot's pixel width divided by the
    logical width, whatever the sign of that ratio: the code does not test
    it. *)
Theorem construction_fails_iff_no_ratio (screen : Screen) (st : Settings) :
  match snd (Window_init screen st) with
  | inl e =>
      screenshot screen = None /\ e = ValueError "Screenshot image is missing!"
      \/ (exists img, screenshot screen = Some img) /\ width screen = 0 /\
         e = ZeroDivisionError
  | inr w =>
      exists img,
        screenshot screen = Some img /\ width screen <> 0 /\
        scale_factor w = PyFloat.div (PyFloat.of_int (img_width img))
                                     (PyFloat.of_int (width screen))
  end.
Proof.
  pose proof (Window_init_cases screen st) as Hc.
  destruct (screenshot screen) as [img|] eqn:Himg.
  - destruct (Z.eqb_spec (width screen) 0) as [Hz|Hz]; rewrite Hc.
    + right. split; [now exists img|]. now split.
    + exists img. now repeat split.
  - rewrite Hc. left. now split.
Qed.

(** C6, as the claim has it, fails: a screen with a captured image and
    logical width zero has no scale factor, and construction raises
    [ZeroDivisionError]. *)
Lemma zero_width_construction_counterexample :
  screenshot zero_width_screen = Some (mkQImage 2000 1600) /\
  snd (Window_init zero_width_screen (sample_settings "parse"))
  = inl ZeroDivisionError /\
  ~ (exists w : Window,
        snd (Window_init zero_width_screen (sample_settings "parse")) = inr w).
Proof.
  split; [reflexivity|]. split; [reflexivity|].
  intros [w Hw]. discriminate Hw.
Qed.

(** C6, amended.  Without a captured image, construction raises
    [ValueError], and so does drawing the background when the window is
    shown, which then sets no pixmap.  With a captured image and a logical
    width other than zero, construction yields a window with its scale
    factor; with a captured image, showing the window sets the pixmap. *)
Theorem missing_screenshot_is_fatal (screen : Screen) (st : Settings) :
  (screenshot screen = None ->
   snd (Window_init screen st) = inl (ValueError "Screenshot image is missing!") /\
   forall w : Window,
     screen_ w = screen ->
     showEvent w
     = (w, [Super "showEvent"], inl (ValueError "Screenshot image is missing!"))) /\
  (forall img : QImage,
      screenshot screen = Some img ->
      (width screen <> 0 ->
       exists w : Window,
         snd (Window_init screen st) = inr w /\
         screen_ w = screen /\
         scale_factor w = PyFloat.div (PyFloat.of_int (img_width img))
                                      (PyFloat.of_int (width screen))) /\
      forall w : Window,
        screen_ w = screen ->
        showEvent w = (w, [Super "showEvent"; SetPixmap img], inr tt)).
Proof.
  pose proof (Window_init_cases screen st) as Hc.
  split.
  - intro Hnone. rewrite Hnone in Hc. split; [exact Hc|].
    intros w Hw. unfold showEvent, _draw_background_image, bind, tell, get.
    rewrite Hw, Hnone. reflexivity.
  - intros img Himg. rewrite Himg in Hc. split.
    + intro Hz. apply Z.eqb_neq in Hz. rewrite Hz in Hc.
      eexists. split; [exact Hc|]. split; reflexivity.
    + intros w Hw. unfold showEvent, _draw_background_image, bind, tell, get.
      rewrite Hw, Himg. reflexivity.
Qed.

Lemma missing_screenshot_is_fatal_witness :
  screenshot blind_screen = None /\
  snd (Window_init blind_screen (sample_settings "parse"))
  = inl (ValueError "Screenshot image is missing!") /\
  showEvent blind_debug_window
  = (blind_debug_window, [Super "showEvent"],
     inl (ValueError "Screenshot image is missing!")) /\
  screenshot (example_screen (PyFloat.of_int 1)) = Some (mkQImage 2000 1600) /\
  width (example_screen (PyFloat.of_int 1)) <> 0 /\
  exists w : Window,
    snd (Window_init (example_screen (PyFloat.of_int 1)) (sample_settings "parse"))
    = inr w /\
    screen_ w = example_screen (PyFloat.of_int 1) /\
    scale_factor w = PyFloat.div (PyFloat.of_int 2000) (PyFloat.of_int 1000).
Proof.
  split; [reflexivity|].
  destruct (missing_screenshot_is_fatal blind_screen (sample_settings "parse"))
    as [H _].
  destruct (H eq_refl) as [H1 H2].
  split; [exact H1|]. split; [exact (H2 blind_debug_window eq_refl)|].
  split; [reflexivity|]. split; [discriminate|].
  destruct (missing_screenshot_is_fatal (example_screen (PyFloat.of_int 1))
              (sample_settings "parse")) as [_ G].
  destruct (G (mkQImage 2000 1600) eq_refl) as [G1 _].
  apply G1. discriminate.
Defined.

(** ** Painting the overlay *)

Lemma CaptureMode_getitem_known (name : string) :
  (exists m, CaptureMode_getitem name = inr m) <->
  name = "RAW" \/ name = "PARSE".
Proof.
  unfold CaptureMode_getitem.
  destruct (String.eqb_spec name "RAW") as [Hr|Hr].
  - split; [now left | now exists RAW].
  - destruct (String.eqb_spec name "PARSE") as [Hp|Hp].
    + split; [now right | now exists PARSE].
    + split; [intros [m Hm]; discriminate Hm | intros [H|H]; contradiction].
Qed.

(** C4, as the claim has it, fails: with a capture mode that is not the
    name of a member of [CaptureMode], a redraw during a drag raises
    [KeyError]. *)
Lemma paint_unknown_mode_counterexample :
  is_selecting (dragging_window_with_mode "foo") = true /\
  value (settings (dragging_window_with_mode "foo")) "mode" = Some "foo" /\
  outcome (paintEvent (dragging_window_with_mode "foo")) = inl (KeyError "FOO").
Proof.
  repeat split.
Qed.

(** C4, amended.  Painting never changes the window.  A redraw with the drag
    flag unset never raises; a redraw with the drag flag set completes
    exactly when the capture mode, in upper case, is the name of a member of
    [CaptureMode] (RAW or PARSE), and raises the [KeyError] of the lookup
    otherwise.  The debug text itself never raises, and without a
    screenshot its image line shows the size (-1, -1). *)
Theorem paint_is_total_on_known_modes (w : Window) :
  final (paintEvent w) = w /\
  outcome (paintEvent w)
  = (if is_selecting w then
       match CaptureMode_getitem (upper (py_str (value (settings w) "mode"))) with
       | inl e => inl e
       | inr _ => inr tt
       end
     else inr tt) /\
  (is_selecting w = true ->
   (outcome (paintEvent w) = inr tt <->
    upper (py_str (value (settings w) "mode")) = "RAW" \/
    upper (py_str (value (settings w) "mode")) = "PARSE")) /\
  (forall rect : QRect,
      final (_draw_debug_infos rect w) = w /\
      outcome (_draw_debug_infos rect w) = inr tt) /\
  (draw_debug_infos (ui_layer w) = true ->
   screenshot (screen_ w) = None ->
   In (Painter (DrawText 25 50 (TxtImage (-1, -1)))) (trace (paintEvent w))).
Proof.
  assert (Hout : outcome (paintEvent w)
                 = (if is_selecting w then
                      match CaptureMode_getitem
                              (upper (py_str (value (settings w) "mode"))) with
                      | inl e => inl e
                      | inr _ => inr tt
                      end
                    else inr tt)).
  { unfold_handlers.
    destruct (is_selecting w), (draw_debug_infos (ui_layer w)); cbn;
      try reflexivity;
      destruct (CaptureMode_getitem (upper (py_str (value (settings w) "mode"))));
      reflexivity. }
  split; [|split; [exact Hout|split; [|split]]].
  - unfold_handlers. split_branches; reflexivity.
  - intro Hsel. rewrite Hout, Hsel.
    rewrite <- CaptureMode_getitem_known.
    destruct (CaptureMode_getitem (upper (py_str (value (settings w) "mode"))))
      as [e|m].
    + split; [discriminate | intros [m Hm]; discriminate Hm].
    + split; [now exists m | reflexivity].
  - intro rect. split; reflexivity.
  - intros Hdebug Hnone. unfold_handlers. rewrite Hdebug.
    destruct (is_selecting w); cbn; rewrite Hnone;
      [destruct (CaptureMode_getitem (upper (py_str (value (settings w) "mode"))))|];
      cbn; auto 10.
Qed.

Lemma paint_is_total_on_known_modes_witness :
  is_selecting dragging_window = true /\
  outcome (paintEvent dragging_window) = inr tt /\
  draw_debug_infos (ui_layer blind_debug_window) = true /\
  screenshot (screen_ blind_debug_window) = None /\
  In (Painter (DrawText 25 50 (TxtImage (-1, -1))))
     (trace (paintEvent blind_debug_window)).
Proof.
  split; [reflexivity|]. split.
  - destruct (paint_is_total_on_known_modes dragging_window)
      as (_ & _ & H & _).
    apply H; [reflexivity | right; reflexivity].
  - split; [reflexivity|]. split; [reflexivity|].
    destruct (paint_is_total_on_known_modes blind_debug_window)
      as (_ & _ & _ & _ & H).
    apply H; reflexivity.
Defined.

(** ** Normalizing the selection rectangle *)

(** C8, as the claim has it, fails: the two corners of the example drag, in
    the two orders, do not normalize to the same rectangle. *)
Lemma normalized_corner_order_counterexample :
  mkQPoint 100 100 <> mkQPoint 300 250 /\
  normalized (QRect_of_points (mkQPoint 100 100) (mkQPoint 300 250))
  = mkQRect 100 100 300 250 /\
  normalized (QRect_of_points (mkQPoint 300 250) (mkQPoint 100 100))
  = mkQRect 101 101 299 249 /\
  normalized (QRect_of_points (mkQPoint 300 250) (mkQPoint 100 100))
  <> normalized (QRect_of_points (mkQPoint 100 100) (mkQPoint 300 250)).
Proof.
  repeat split; discriminate.
Qed.

Lemma normalized_cases (r : QRect) :
  normalized r
  = mkQRect (if x2 r <? x1 r then x2 r + 1 else x1 r)
            (if y2 r <? y1 r then y2 r + 1 else y1 r)
            (if x2 r <? x1 r then x1 r - 1 else x2 r)
            (if y2 r <? y1 r then y1 r - 1 else y2 r).
Proof.
  unfold normalized. destruct (x2 r <? x1 r), (y2 r <? y1 r); reflexivity.
Qed.

(** C8, amended.  Normalizing is idempotent.  It depends on the order of the
    corners, axis by axis: on an axis on which the second corner is not
    less than the first the two coordinates are kept, and on an axis on
    which it is less they are swapped and each moved inwards by one; the
    two axes are treated independently.  So the rectangles of (P1, P0) and
    of (P0, P1) normalize to the same rectangle only when P0 = P1. *)
Theorem normalized_idempotent_order_sensitive :
  (forall r : QRect, normalized (normalized r) = normalized r) /\
  (forall P0 P1 : QPoint,
      normalized (QRect_of_points P1 P0) = normalized (QRect_of_points P0 P1)
      <-> P0 = P1) /\
  (forall P0 P1 : QPoint,
      px P0 <= px P1 -> py P0 <= py P1 ->
      normalized (QRect_of_points P0 P1) = QRect_of_points P0 P1) /\
  (forall P0 P1 : QPoint,
      px P0 < px P1 -> py P0 < py P1 ->
      normalized (QRect_of_points P1 P0)
      = mkQRect (px P0 + 1) (py P0 + 1) (px P1 - 1) (py P1 - 1)) /\
  (forall r : QRect,
      normalized r
      = mkQRect (if x2 r <? x1 r then x2 r + 1 else x1 r)
                (if y2 r <? y1 r then y2 r + 1 else y1 r)
                (if x2 r <? x1 r then x1 r - 1 else x2 r)
                (if y2 r <? y1 r then y1 r - 1 else y2 r)) /\
  (forall P0 P1 : QPoint,
      (px P0 <= px P1 ->
       x1 (normalized (QRect_of_points P0 P1)) = px P0 /\
       x2 (normalized (QRect_of_points P0 P1)) = px P1) /\
      (px P1 < px P0 ->
       x1 (normalized (QRect_of_points P0 P1)) = px P1 + 1 /\
       x2 (normalized (QRect_of_points P0 P1)) = px P0 - 1) /\
      (py P0 <= py P1 ->
       y1 (normalized (QRect_of_points P0 P1)) = py P0 /\
       y2 (normalized (QRect_of_points P0 P1)) = py P1) /\
      (py P1 < py P0 ->
       y1 (normalized (QRect_of_points P0 P1)) = py P1 + 1 /\
       y2 (normalized (QRect_of_points P0 P1)) = py P0 - 1)).
Proof.
  split; [|split; [|split; [|split; [|split]]]].
  - intro r. rewrite !normalized_cases. cbn [x1 x2 y1 y2].
    destruct (Z.ltb_spec (x2 r) (x1 r)), (Z.ltb_spec (y2 r) (y1 r));
      repeat match goal with
             | |- context [?a <? ?b] => destruct (Z.ltb_spec a b)
             end;
      f_equal; lia.
  - intros [a b] [c d]. rewrite !normalized_cases.
    unfold QRect_of_points. cbn [x1 x2 y1 y2 px py].
    split.
    + intro H.
      destruct (Z.ltb_spec a c), (Z.ltb_spec c a),
               (Z.ltb_spec b d), (Z.ltb_spec d b);
        injection H as E1 E2 E3 E4; f_equal; lia.
    + intro H. injection H as -> ->. reflexivity.
  - intros [a b] [c d]. cbn [px py]. intros Hx Hy.
    rewrite normalized_cases. unfold QRect_of_points. cbn [x1 x2 y1 y2 px py].
    destruct (Z.ltb_spec c a), (Z.ltb_spec d b); try lia. reflexivity.
  - intros [a b] [c d]. cbn [px py]. intros Hx Hy.
    rewrite normalized_cases. unfold QRect_of_points. cbn [x1 x2 y1 y2 px py].
    destruct (Z.ltb_spec a c), (Z.ltb_spec b d); try lia. reflexivity.
  - exact normalized_cases.
  - intros [a b] [c d]. rewrite normalized_cases.
    unfold QRect_of_points. cbn [x1 x2 y1 y2 px py].
    destruct (Z.ltb_spec c a), (Z.ltb_spec d b);
      repeat split; intros; try lia; reflexivity.
Qed.

Lemma normalized_idempotent_order_sensitive_witness :
  100 < 300 /\ 100 < 250 /\
  normalized (QRect_of_points (mkQPoint 300 250) (mkQPoint 100 100))
  = mkQRect (100 + 1) (100 + 1) (300 - 1) (250 - 1) /\
  normalized (QRect_of_points (mkQPoint 100 100) (mkQPoint 300 250))
  = QRect_of_points (mkQPoint 100 100) (mkQPoint 300 250) /\
  (100 <= 300 /\ 100 < 250 /\
   x1 (normalized (QRect_of_points (mkQPoint 100 250) (mkQPoint 300 100))) = 100 /\
   x2 (normalized (QRect_of_points (mkQPoint 100 250) (mkQPoint 300 100))) = 300 /\
   y1 (normalized (QRect_of_points (mkQPoint 100 250) (mkQPoint 300 100))) = 100 + 1 /\
   y2 (normalized (QRect_of_points (mkQPoint 100 250) (mkQPoint 300 100))) = 250 - 1).
Proof.
  destruct normalized_idempotent_order_sensitive as (_ & _ & Hasc & Hdesc & _ & Haxis).
  split; [lia|]. split; [lia|]. split; [|split].
  - apply (Hdesc (mkQPoint 100 100) (mkQPoint 300 250)); cbn; lia.
  - apply (Hasc (mkQPoint 100 100) (mkQPoint 300 250)); cbn; lia.
  - destruct (Haxis (mkQPoint 100 250) (mkQPoint 300 100)) as (Hx & _ & _ & Hy).
    split; [lia|]. split; [lia|].
    destruct Hx as [Hx1 Hx2]; [cbn; lia|].
    destruct Hy as [Hy1 Hy2]; [cbn; lia|].
    repeat split; assumption.
Defined.

(** * Further properties of the handlers *)

(** ** The selection as a state machine *)

Lemma step_press_left (w : Window) (pos : QPoint) :
  step w (MousePress LeftButton pos)
  = (after_press pos w, [Super "mousePressEvent"; Update]).
Proof. reflexivity. Qed.

Lemma step_move (w : Window) (pos : QPoint) :
  step w (MouseMove pos)
  = (set_selection_end pos w, [Super "mouseMoveEvent"; Update]).
Proof. reflexivity. Qed.

Lemma step_release_during_drag (w : Window) (pos : QPoint) :
  is_selecting w = true ->
  step w (MouseRelease LeftButton pos)
  = (after_release w,
     [Super "mouseReleaseEvent"; Update;
      Emit (on_region_selected (selected_region w (selection_start w) pos))]).
Proof.
  intro Hsel. unfold step, handle, mouseReleaseEvent, bind, tell, get, modify, ret.
  cbn [MouseButton_eqb negb orb]. rewrite Hsel. reflexivity.
Qed.

Lemma step_release_idle (w : Window) (button : MouseButton) (pos : QPoint) :
  is_selecting w = false ->
  step w (MouseRelease button pos) = (w, [Super "mouseReleaseEvent"]).
Proof.
  intro Hsel. unfold step, handle, mouseReleaseEvent, bind, tell, get, ret.
  rewrite Hsel. cbn [negb]. rewrite orb_true_r. reflexivity.
Qed.

Lemma last_cons_default {A} (x : A) (l : list A) (d d' : A) :
  last (x :: l) d = last (x :: l) d'.
Proof.
  revert x; induction l as [|y l IH]; intro x; [reflexivity|].
  change (last (y :: l) d = last (y :: l) d'). apply IH.
Qed.

(** After pointer moves the end point is the last position; nothing else
    has changed and nothing was emitted. *)
Lemma run_moves_state (moves : list QPoint) (w : Window) :
  fst (run w (map MouseMove moves))
  = set_selection_end (last moves (selection_end w)) w /\
  emitted (snd (run w (map MouseMove moves))) = [] /\
  uncaught (snd (run w (map MouseMove moves))) = [].
Proof.
  revert w; induction moves as [|p moves IH]; intro w.
  - cbn. destruct w; repeat split.
  - cbn [map]. rewrite run_cons, step_move. cbn [fst snd].
    destruct (IH (set_selection_end p w)) as (H1 & H2 & H3).
    rewrite H1. cbn [emitted uncaught app]. repeat split; try assumption.
    destruct moves as [|q moves]; [reflexivity|].
    change (last (p :: q :: moves) (selection_end w))
      with (last (q :: moves) (selection_end w)).
    rewrite (last_cons_default q moves
               (selection_end (set_selection_end p w)) (selection_end w)).
    reflexivity.
Qed.

(** A drag, seen from any window: the state it ends in and its trace up
    to the signal. *)
Lemma run_drag (w : Window) (P0 Pn : QPoint) (moves : list QPoint) :
  exists t,
    snd (run w (drag P0 moves Pn))
    = t ++ [Emit (on_region_selected (selected_region w P0 Pn))] /\
    emitted t = [] /\ uncaught t = [] /\
    fst (run w (drag P0 moves Pn)) = after_release w.
Proof.
  unfold drag. rewrite run_cons, step_press_left. cbn [fst snd].
  rewrite run_app.
  destruct (run_moves_state moves (after_press P0 w)) as (Hst & Hem & Hun).
  rewrite Hst. cbn [run fst snd].
  rewrite step_release_during_drag by reflexivity. cbn [fst snd].
  exists ([Super "mousePressEvent"; Update]
          ++ snd (run (after_press P0 w) (map MouseMove moves))
          ++ [Super "mouseReleaseEvent"; Update]).
  split; [|split; [|split]].
  - rewrite app_nil_r. cbn [app]. rewrite <- !app_assoc. reflexivity.
  - cbn [app emitted]. rewrite emitted_app, Hem. reflexivity.
  - cbn [app uncaught].
    assert (Happ : forall t1 t2, uncaught (t1 ++ t2) = uncaught t1 ++ uncaught t2).
    { induction t1 as [|e t1 IH]; intro t2; [reflexivity|].
      destruct e; cbn; rewrite ?IH; reflexivity. }
    rewrite Happ, Hun. reflexivity.
  - reflexivity.
Qed.

Lemma emitted_uncaught_app (t1 t2 : list Effect) :
  uncaught (t1 ++ t2) = uncaught t1 ++ uncaught t2 /\
  redraws (t1 ++ t2) = (redraws t1 + redraws t2)%nat.
Proof.
  induction t1 as [|e t1 [IH1 IH2]]; [split; reflexivity|].
  destruct e; cbn; rewrite ?IH1, ?IH2; split; reflexivity.
Qed.

(** X1.  Releases without an active drag do nothing: whatever buttons are
    released, wherever and however often, the window stays as it is, no
    redraw is requested and no signal is emitted. *)
Theorem release_without_drag_is_noop (w : Window)
    (rels : list (MouseButton * QPoint)) (Hidle : is_selecting w = false) :
  fst (run w (releases rels)) = w /\
  emitted (snd (run w (releases rels))) = [] /\
  redraws (snd (run w (releases rels))) = 0%nat /\
  uncaught (snd (run w (releases rels))) = [].
Proof.
  induction rels as [|[b p] rels IH]; [repeat split|].
  unfold releases in *. cbn [map fst snd]. rewrite run_cons.
  rewrite (step_release_idle w b p Hidle). cbn [fst snd app].
  destruct IH as (H1 & H2 & H3 & H4). repeat split; assumption.
Qed.

Lemma release_without_drag_is_noop_witness :
  is_selecting idle_window = false /\
  fst (run idle_window
         (releases [(LeftButton, mkQPoint 300 250); (RightButton, mkQPoint 1 1)]))
  = idle_window.
Proof.
  split; [reflexivity|].
  apply (@release_without_drag_is_noop idle_window
           [(LeftButton, mkQPoint 300 250); (RightButton, mkQPoint 1 1)]).
  reflexivity.
Defined.

(** X2.  A second left press during a drag starts the drag anew: the region
    reported at the release spans the second press point and the release
    point, and the first press point plays no role. *)
Theorem second_press_restarts_drag (w : Window) (P0 P0' Pn : QPoint)
    (moves moves' : list QPoint) :
  emitted (snd (run w (MousePress LeftButton P0 :: map MouseMove moves
                         ++ drag P0' moves' Pn)))
  = [on_region_selected (selected_region w P0' Pn)].
Proof.
  rewrite run_cons, step_press_left. cbn [fst snd].
  rewrite run_app. cbn [fst snd app emitted].
  destruct (run_moves_state moves (after_press P0 w)) as (Hst & Hem & _).
  rewrite emitted_app, Hem, Hst. cbn [app].
  destruct (run_drag (set_selection_end (last moves (selection_end (after_press P0 w)))
                        (after_press P0 w)) P0' Pn moves')
    as (t & Ht & Hemt & _).
  rewrite Ht, emitted_app, Hemt. reflexivity.
Qed.

(** X3.  Escape cancels a drag for good: after a press, any moves, Escape
    and any further moves, the release of any button emits nothing and the
    window is not selecting; the next Escape then asks to cancel the
    capture. *)
Theorem escape_cancels_drag (w : Window) (P0 Pn : QPoint)
    (moves moves' : list QPoint) (button : MouseButton) :
  let cancelled :=
    MousePress LeftButton P0 :: map MouseMove moves
      ++ KeyPress Key_Escape :: map MouseMove moves'
      ++ [MouseRelease button Pn] in
  emitted (snd (run w cancelled)) = [] /\
  is_selecting (fst (run w cancelled)) = false /\
  emitted (snd (run w (cancelled ++ [KeyPress Key_Escape])))
  = [on_esc_key_pressed].
Proof.
  assert (H : emitted (snd (run w (MousePress LeftButton P0 :: map MouseMove moves
      ++ KeyPress Key_Escape :: map MouseMove moves'
      ++ [MouseRelease button Pn]))) = [] /\
    is_selecting (fst (run w (MousePress LeftButton P0 :: map MouseMove moves
      ++ KeyPress Key_Escape :: map MouseMove moves'
      ++ [MouseRelease button Pn]))) = false).
  { rewrite run_cons, step_press_left. cbn [fst snd].
    rewrite run_app.
    destruct (run_moves_state moves (after_press P0 w)) as (Hst & Hem & _).
    rewrite Hst. set (w1 := set_selection_end _ (after_press P0 w)).
    rewrite run_cons.
    assert (Hesc : step w1 (KeyPress Key_Escape)
                   = (set_is_selecting false w1, [Super "keyPressEvent"; Update]))
      by reflexivity.
    rewrite Hesc. cbn [fst snd]. rewrite run_app.
    destruct (run_moves_state moves' (set_is_selecting false w1))
      as (Hst' & Hem' & _).
    rewrite Hst'. cbn [run].
    rewrite step_release_idle by reflexivity.
    cbn [fst snd app emitted]. rewrite !emitted_app, Hem.
    cbn [app emitted]. rewrite emitted_app, Hem'.
    split; reflexivity. }
  cbv zeta. revert H.
  generalize (MousePress LeftButton P0 :: map MouseMove moves
      ++ KeyPress Key_Escape :: map MouseMove moves'
      ++ [MouseRelease button Pn]).
  intros cancelled [H1 H2]. split; [exact H1|]. split; [exact H2|].
  rewrite run_app. cbn [snd]. rewrite emitted_app, H1. cbn [app run].
  unfold step, handle, keyPressEvent, bind, tell, get, when. cbn [Key_eqb].
  rewrite H2. reflexivity.
Qed.

(** X4.  The signal is the last effect of a drag: in the trace of the
    drag every toolkit call, the redraw request of the release included,
    comes before the emission of [on_region_selected], and nothing is
    emitted or raised before it.  The drag ends with the window in its idle
    selection state. *)
Theorem region_is_emitted_last (w : Window) (P0 Pn : QPoint)
    (moves : list QPoint) :
  exists t,
    snd (run w (drag P0 moves Pn))
    = t ++ [Emit (on_region_selected (selected_region w P0 Pn))] /\
    emitted t = [] /\ uncaught t = [] /\
    (2 <= redraws t)%nat /\
    fst (run w (drag P0 moves Pn)) = after_release w.
Proof.
  unfold drag. rewrite run_cons, step_press_left. cbn [fst snd].
  rewrite run_app.
  destruct (run_moves_state moves (after_press P0 w)) as (Hst & Hem & Hun).
  rewrite Hst. cbn [run fst snd].
  rewrite step_release_during_drag by reflexivity. cbn [fst snd].
  exists ([Super "mousePressEvent"; Update]
          ++ snd (run (after_press P0 w) (map MouseMove moves))
          ++ [Super "mouseReleaseEvent"; Update]).
  split; [|split; [|split; [|split]]].
  - rewrite app_nil_r. cbn [app]. rewrite <- !app_assoc. reflexivity.
  - cbn [app emitted]. rewrite emitted_app, Hem. reflexivity.
  - cbn [app uncaught].
    rewrite (proj1 (emitted_uncaught_app _ _)), Hun. reflexivity.
  - cbn [app redraws].
    rewrite (proj2 (emitted_uncaught_app _ _)). cbn [redraws]. lia.
  - reflexivity.
Qed.

Lemma normalized_of_points (P0 Pn : QPoint) :
  (px P0 <= px Pn -> py P0 <= py Pn ->
   normalized (QRect_of_points P0 Pn) = mkQRect (px P0) (py P0) (px Pn) (py Pn)) /\
  (px Pn < px P0 -> py Pn < py P0 ->
   normalized (QRect_of_points P0 Pn)
   = mkQRect (px Pn + 1) (py Pn + 1) (px P0 - 1) (py P0 - 1)).
Proof.
  rewrite normalized_cases. unfold QRect_of_points. cbn [x1 x2 y1 y2].
  split; intros Hx Hy.
  - destruct (Z.ltb_spec (px Pn) (px P0)), (Z.ltb_spec (py Pn) (py P0));
      try lia. reflexivity.
  - destruct (Z.ltb_spec (px Pn) (px P0)), (Z.ltb_spec (py Pn) (py P0));
      try lia. reflexivity.
Qed.

(** X5.  What a drag reports depends on its direction.  Towards the bottom
    right (a click without movement included) the region is spanned by the
    scaled press and release points, so a click reports a rectangle whose
    left equals its right and whose top equals its bottom.  Towards the top
    left the corners are swapped and each moved inwards by one before they
    are scaled. *)
Theorem drag_direction_decides_corners (w : Window) (P0 Pn : QPoint)
    (moves : list QPoint) :
  (px P0 <= px Pn -> py P0 <= py Pn ->
   emitted (snd (run w (drag P0 moves Pn)))
   = [on_region_selected
        (Rect_scaled (mkRect (px P0) (py P0) (px Pn) (py Pn)) (scale_factor w),
         index (screen_ w))]) /\
  (px Pn < px P0 -> py Pn < py P0 ->
   emitted (snd (run w (drag P0 moves Pn)))
   = [on_region_selected
        (Rect_scaled (mkRect (px Pn + 1) (py Pn + 1) (px P0 - 1) (py P0 - 1))
                     (scale_factor w),
         index (screen_ w))]) /\
  (P0 = Pn ->
   exists r : Rect,
     emitted (snd (run w (drag P0 moves Pn)))
     = [on_region_selected (r, index (screen_ w))] /\
     left r = right r /\ top r = bottom r).
Proof.
  destruct (run_drag w P0 Pn moves) as (t & Ht & Hem & _).
  rewrite Ht, emitted_app, Hem. cbn [app emitted]. unfold selected_region.
  destruct (normalized_of_points P0 Pn) as [Hasc Hdesc].
  split; [|split].
  - intros Hx Hy. rewrite (Hasc Hx Hy). reflexivity.
  - intros Hx Hy. rewrite (Hdesc Hx Hy). reflexivity.
  - intros <-. rewrite Hasc by lia. eexists. split; [reflexivity|].
    split; reflexivity.
Qed.

Lemma drag_direction_decides_corners_witness :
  (300 <= 300 /\ 250 <= 250 /\
   emitted (snd (run idle_window (drag (mkQPoint 300 250) [] (mkQPoint 300 250))))
   = [on_region_selected (mkRect 600 500 600 500, 0)]) /\
  (100 < 300 /\ 100 < 250 /\
   emitted (snd (run idle_window (drag (mkQPoint 300 250) [] (mkQPoint 100 100))))
   = [on_region_selected (mkRect 202 202 598 498, 0)]).
Proof.
  split.
  - split; [lia|]. split; [lia|].
    destruct (drag_direction_decides_corners idle_window (mkQPoint 300 250)
                (mkQPoint 300 250) []) as (H & _ & _).
    apply H; cbn; lia.
  - split; [lia|]. split; [lia|].
    destruct (drag_direction_decides_corners idle_window (mkQPoint 300 250)
                (mkQPoint 100 100) []) as (_ & H & _).
    apply H; cbn; lia.
Defined.

(** ** Where the signals and the exceptions come from *)

Ltac in_trace H :=
  repeat (destruct H as [H|H]; [try discriminate H|]); try contradiction.

Ltac never_in_trace :=
  unfold step; unfold_handlers; split_branches; cbn;
  let H := fresh "Hin" in intro H; in_trace H.

(** X6.  [on_region_selected] has one source: an event emits it exactly
    when it is a release of the left button that finds the drag flag set,
    and the payload is then the region between the stored start point and
    the release point. *)
Theorem region_signal_provenance (w : Window) (ev : Event) (p : Rect * Z) :
  In (Emit (on_region_selected p)) (snd (step w ev)) <->
  exists pos,
    ev = MouseRelease LeftButton pos /\ is_selecting w = true /\
    p = selected_region w (selection_start w) pos.
Proof.
  split.
  - destruct ev as [key|button pos|pos|button pos|type sys active|size| |].
    4: { destruct (is_selecting w) eqn:Hsel.
         - destruct button;
             [| unfold step, handle, mouseReleaseEvent, bind, tell, get, ret;
                cbn; intro H; in_trace H ..].
           rewrite (step_release_during_drag w pos Hsel). cbn. intro H.
           in_trace H. injection H as <-. now exists pos.
         - rewrite (step_release_idle w button pos Hsel). cbn. intro H.
           in_trace H. }
    all: never_in_trace.
  - intros (pos & -> & Hsel & ->).
    rewrite (step_release_during_drag w pos Hsel). cbn. auto.
Qed.

(** X7.  [on_esc_key_pressed] has one source: an event emits it exactly
    when it is a press of Escape that finds no drag in progress. *)
Theorem esc_signal_provenance (w : Window) (ev : Event) :
  In (Emit on_esc_key_pressed) (snd (step w ev)) <->
  ev = KeyPress Key_Escape /\ is_selecting w = false.
Proof.
  split.
  - destruct ev as [key|button pos|pos|button pos|type sys active|size| |].
    1: { destruct key as [|code], (is_selecting w) eqn:Hsel;
           unfold step, handle, keyPressEvent, bind, tell, get, modify, when;
           cbn; rewrite ?Hsel; cbn; intro H; in_trace H.
         now split. }
    all: never_in_trace.
  - intros [-> Hsel].
    unfold step, handle, keyPressEvent, bind, tell, get, modify, when.
    cbn. rewrite Hsel. cbn. auto.
Qed.

(** When the helper of the desktop environment ends with an exception. *)
Lemma helper_failure_cases (sys : SystemInfo) :
  (helper_failure sys = None <->
   (has_workaround sys = true -> qtdbus_usable sys = true) /\
   (desktop_environment sys = KDE ->
    tempfile_create_fails sys = false /\ tempfile_write_fails sys = false /\
    unlink_fails sys = false)) /\
  (forall e,
      helper_failure sys = Some e <->
      has_workaround sys = true /\ qtdbus_usable sys = false /\
      e = TypeError "QtDBus should only be called on Linux systems!"
      \/
      desktop_environment sys = KDE /\ qtdbus_usable sys = true /\
      (tempfile_create_fails sys = true \/ tempfile_write_fails sys = true \/
       unlink_fails sys = true) /\
      e = OSError).
Proof.
  unfold helper_failure, has_workaround.
  destruct (desktop_environment sys), (qtdbus_usable sys),
    (tempfile_create_fails sys), (tempfile_write_fails sys), (unlink_fails sys);
    cbn; (split; [split | intro e; split]);
    try (intro H; try discriminate H; try injection H as <-);
    intuition congruence.
Qed.

(** The ways an activation can go: nothing, a helper that raises, or the
    whole workaround. *)
Lemma changeEvent_cases (type : QEventType) (sys : SystemInfo) (active : bool)
    (w : Window) :
  if activation_applies type sys active w then
    match helper_failure sys with
    | Some e =>
        final (changeEvent type sys active w) = w /\
        outcome (changeEvent type sys active w) = inl e /\
        emitted (trace (changeEvent type sys active w)) = [] /\
        focus_requests (trace (changeEvent type sys active w)) = 1%nat /\
        positioned_count (trace (changeEvent type sys active w)) = 0%nat /\
        In SetFocus (trace (changeEvent type sys active w))
    | None =>
        final (changeEvent type sys active w) = set_is_positioned true w /\
        outcome (changeEvent type sys active w) = inr tt /\
        emitted (trace (changeEvent type sys active w)) = [on_window_positioned] /\
        focus_requests (trace (changeEvent type sys active w)) = 1%nat /\
        positioned_count (trace (changeEvent type sys active w)) = 1%nat /\
        In SetFocus (trace (changeEvent type sys active w)) /\
        In (Emit on_window_positioned) (trace (changeEvent type sys active w))
    end
  else
    changeEvent type sys active w = (w, [Super "changeEvent"], inr tt).
Proof.
  unfold activation_applies, helper_failure, has_workaround, qtdbus_usable,
    changeEvent, bind, tell, get, when.
  destruct (QEventType_eqb type ActivationChange
            && display_manager_is_wayland sys && active
            && negb (is_positioned w)); [|reflexivity].
  unfold _position_windows_on_wayland,
    _move_active_window_to_position_on_gnome,
    _move_active_window_to_position_on_kde, bind, tell, get, modify, when, raise,
    ret, final, trace, outcome, focus_requests, positioned_count.
  destruct (desktop_environment sys).
  1, 4: cbn; repeat split; tauto.
  - destruct (HAS_QTDBUS sys), (platform_is_linux sys);
      repeat (cbn;
              match goal with
              | |- context [if ?b then _ else _] => destruct b
              end);
      cbn; repeat split; tauto.
  - destruct (HAS_QTDBUS sys), (platform_is_linux sys);
      [ destruct (tempfile_create_fails sys), (tempfile_write_fails sys),
          (unlink_fails sys) | ..];
      repeat (cbn;
              match goal with
              | |- context [if ?b then _ else _] => destruct b
              end);
      cbn; repeat split; tauto.
Qed.

Lemma step_of_changeEvent (type : QEventType) (sys : SystemInfo) (active : bool)
    (w : Window) :
  step w (Change type sys active)
  = (final (changeEvent type sys active w),
     trace (changeEvent type sys active w)
     ++ match outcome (changeEvent type sys active w) with
        | inl e => [Uncaught e]
        | inr _ => []
        end).
Proof.
  unfold step, handle, final, trace, outcome.
  destruct (changeEvent type sys active w) as [[w' t] [e|u]]; cbn;
    [reflexivity | now rewrite app_nil_r].
Qed.

(** X8.  The positioning workaround has one source.  An event requests the
    focus exactly when it is an activation change on Wayland that finds the
    window active and unpositioned; it emits [on_window_positioned] exactly
    when, in addition, the helper that is due does not raise: QtDBus can be
    used where the desktop is Gnome or KDE, and on KDE no operation on the
    script file fails. *)
Theorem positioning_provenance (w : Window) (ev : Event) :
  (In SetFocus (snd (step w ev)) <->
   exists type sys active,
     ev = Change type sys active /\
     activation_applies type sys active w = true) /\
  (In (Emit on_window_positioned) (snd (step w ev)) <->
   exists type sys active,
     ev = Change type sys active /\
     activation_applies type sys active w = true /\
     (has_workaround sys = true -> qtdbus_usable sys = true) /\
     (desktop_environment sys = KDE ->
      tempfile_create_fails sys = false /\ tempfile_write_fails sys = false /\
      unlink_fails sys = false)).
Proof.
  destruct ev as [key|button pos|pos|button pos|type sys active|size| |].
  5: { rewrite step_of_changeEvent. cbn [snd].
       pose proof (changeEvent_cases type sys active w) as Hc.
       destruct (helper_failure_cases sys) as [Hnone _].
       destruct (activation_applies type sys active w) eqn:Happ.
       - destruct (helper_failure sys) as [e|] eqn:Hf.
         + destruct Hc as (_ & Hout & Hem & _ & _ & Hfocus).
           rewrite Hout. split; split.
           * intros _. now exists type, sys, active.
           * intros _. apply in_or_app. now left.
           * intro H. apply in_app_or in H. destruct H as [H|H].
             -- assert (Hin : In on_window_positioned
                                (emitted (trace (changeEvent type sys active w)))).
                { clear - H. induction (trace (changeEvent type sys active w))
                    as [|x t IH]; [contradiction|].
                  destruct H as [->|H]; [now left|].
                  destruct x; cbn; auto. }
                rewrite Hem in Hin. contradiction.
             -- in_trace H.
           * intros (t' & s' & a' & E & _ & Hx & Hy). injection E as <- <- <-.
             assert (Hn : Some e = None) by (apply Hnone; now split).
             discriminate Hn.
         + destruct Hc as (_ & Hout & _ & _ & _ & Hfocus & Hemit).
           rewrite Hout, app_nil_r. split; split.
           * intros _. now exists type, sys, active.
           * intros _. exact Hfocus.
           * intros _. exists type, sys, active.
             destruct (proj1 Hnone eq_refl) as [Hx Hy].
             split; [reflexivity|]. split; [exact Happ|]. split; assumption.
           * intros _. exact Hemit.
       - rewrite Hc. cbn. split; split.
         + intro H. in_trace H.
         + intros (t' & s' & a' & E & Hx). injection E as <- <- <-. congruence.
         + intro H. in_trace H.
         + intros (t' & s' & a' & E & Hx & _). injection E as <- <- <-. congruence. }
  all: split; split;
    try (intros (t' & s' & a' & E & _); discriminate E);
    never_in_trace.
Qed.

(** Handlers report no exception themselves; the event loop does. *)
Lemma handle_no_uncaught (ev : Event) (w : Window) (e : Exn) :
  ~ In (Uncaught e) (trace (handle ev w)).
Proof.
  destruct ev; unfold trace; unfold_handlers; split_branches; cbn;
    intro H; in_trace H.
Qed.

Lemma step_uncaught (w : Window) (ev : Event) (e : Exn) :
  In (Uncaught e) (snd (step w ev)) <-> outcome (handle ev w) = inl e.
Proof.
  pose proof (handle_no_uncaught ev w e) as Hno.
  unfold step, trace, outcome in *.
  destruct (handle ev w) as [[w' t] [e'|u]]; cbn in *.
  - rewrite in_app_iff. cbn. split.
    + intros [H|[H|[]]]; [contradiction | now injection H as ->].
    + intro H. injection H as ->. auto.
  - split; [contradiction | discriminate].
Qed.

Lemma paintEvent_outcome (w : Window) :
  outcome (paintEvent w)
  = if is_selecting w then
      match CaptureMode_getitem (upper (py_str (value (settings w) "mode"))) with
      | inl e => inl e
      | inr _ => inr tt
      end
    else inr tt.
Proof.
  unfold_handlers.
  destruct (is_selecting w), (draw_debug_infos (ui_layer w)); cbn;
    try reflexivity;
    destruct (CaptureMode_getitem (upper (py_str (value (settings w) "mode"))));
    reflexivity.
Qed.

(** X9.  The handlers raise in four situations and in no other: showing
    a window whose screen has no screenshot ([ValueError]), painting during
    a drag with a capture mode that names no member of [CaptureMode]
    ([KeyError]), an activation that is due a helper where QtDBus cannot be
    used ([TypeError]), and an activation on KDE, with QtDBus usable, during
    which an operation on the script file fails ([OSError]).  Key presses,
    mouse events and resizes never raise. *)
Theorem exception_provenance (w : Window) (ev : Event) (e : Exn) :
  In (Uncaught e) (snd (step w ev)) <->
  (ev = Show /\ screenshot (screen_ w) = None /\
   e = ValueError "Screenshot image is missing!") \/
  (ev = PaintUiLayer /\ is_selecting w = true /\
   CaptureMode_getitem (upper (py_str (value (settings w) "mode"))) = inl e) \/
  (exists type sys active,
      ev = Change type sys active /\
      activation_applies type sys active w = true /\
      has_workaround sys = true /\ qtdbus_usable sys = false /\
      e = TypeError "QtDBus should only be called on Linux systems!") \/
  (exists type sys active,
      ev = Change type sys active /\
      activation_applies type sys active w = true /\
      desktop_environment sys = KDE /\ qtdbus_usable sys = true /\
      (tempfile_create_fails sys = true \/ tempfile_write_fails sys = true \/
       unlink_fails sys = true) /\
      e = OSError).
Proof.
  rewrite step_uncaught.
  destruct ev as [key|button pos|pos|button pos|type sys active|size| |];
    cbn [handle].
  5: { pose proof (changeEvent_cases type sys active w) as Hc.
       destruct (helper_failure_cases sys) as [_ Hsome].
       destruct (activation_applies type sys active w) eqn:Happ.
       - split.
         + intro Hout.
           destruct (helper_failure sys) as [e'|] eqn:Hf.
           * destruct Hc as (_ & Hout' & _). rewrite Hout' in Hout.
             injection Hout as ->.
             destruct (proj1 (Hsome e) eq_refl)
               as [(H1 & H2 & H3)|(H1 & H2 & H3 & H4)].
             -- right. right. left. exists type, sys, active. now repeat split.
             -- right. right. right. exists type, sys, active. now repeat split.
           * destruct Hc as (_ & Hout' & _). rewrite Hout' in Hout.
             discriminate Hout.
         + intros [(E & _)|[(E & _)|[(t' & s' & a' & E & _ & H1 & H2 & H3)
                                    |(t' & s' & a' & E & _ & H1 & H2 & H3 & H4)]]];
             try discriminate E; injection E as <- <- <-.
           * assert (Hf : helper_failure sys = Some e)
               by (apply Hsome; left; now repeat split).
             rewrite Hf in Hc. now destruct Hc as (_ & Hout & _).
           * assert (Hf : helper_failure sys = Some e)
               by (apply Hsome; right; now repeat split).
             rewrite Hf in Hc. now destruct Hc as (_ & Hout & _).
       - rewrite Hc. cbn. split; [discriminate|].
         intros [(E & _)|[(E & _)|[(t' & s' & a' & E & Ha & _)
                                  |(t' & s' & a' & E & Ha & _)]]];
           try discriminate E; injection E as <- <- <-; congruence. }
  7: { rewrite paintEvent_outcome. destruct (is_selecting w) eqn:Hsel.
       - destruct (CaptureMode_getitem (upper (py_str (value (settings w) "mode"))))
           as [e'|m]; split.
         + intro H. injection H as <-. right. left. now repeat split.
         + intros [(E & _)|[(_ & _ & H)|[(t' & s' & a' & E & _)
                                        |(t' & s' & a' & E & _)]]];
             [discriminate E | now injection H as -> | discriminate E
             | discriminate E].
         + discriminate.
         + intros [(E & _)|[(_ & _ & H)|[(t' & s' & a' & E & _)
                                        |(t' & s' & a' & E & _)]]];
             [discriminate E | discriminate H | discriminate E | discriminate E].
       - split; [discriminate|].
         intros [(E & _)|[(_ & H & _)|[(t' & s' & a' & E & _)
                                      |(t' & s' & a' & E & _)]]];
           [discriminate E | discriminate H | discriminate E | discriminate E]. }
  6: { unfold showEvent, _draw_background_image, bind, tell, get, raise, outcome.
       destruct (screenshot (screen_ w)) as [img|] eqn:Himg; cbn; split.
       - discriminate.
       - intros [(_ & H & _)|[(E & _)|[(t' & s' & a' & E & _)
                                      |(t' & s' & a' & E & _)]]];
           [discriminate H | discriminate E | discriminate E | discriminate E].
       - intro H. injection H as <-. left. now repeat split.
       - intros [(_ & _ & ->)|[(E & _)|[(t' & s' & a' & E & _)
                                       |(t' & s' & a' & E & _)]]];
           [reflexivity | discriminate E | discriminate E | discriminate E]. }
  all: split;
    [ unfold outcome; unfold_handlers; split_branches; cbn; discriminate
    | intros [(E & _)|[(E & _)|[(t' & s' & a' & E & _)
                               |(t' & s' & a' & E & _)]]]; discriminate E ].
Qed.

(** ** The helpers that talk to the desktop shell *)

Ltac close_cases :=
  try tauto; try discriminate; try reflexivity;
  try (intros;
       repeat match goal with
              | H : _ \/ _ |- _ => destruct H
              | H : _ /\ _ |- _ => destruct H
              | H : False |- _ => contradiction
              | H : _ = _ |- _ => discriminate H
              end; tauto).

(** X10.  The Gnome helper raises [TypeError] exactly when QtDBus cannot be
    used, and has then done nothing at all.  Otherwise it never raises,
    whatever the bus answers: it calls [Eval] on the shell once if the
    interface is valid and not at all if it is not, in which case it logs a
    warning; a bus that is not connected is logged and the call is attempted
    all the same.  It never touches the window. *)
Theorem gnome_helper_behaviour (sys : SystemInfo) (r : Rect) (w : Window) :
  let res := _move_active_window_to_position_on_gnome sys r w in
  final res = w /\
  (if qtdbus_usable sys then
     outcome res = inr tt /\
     bus_calls (trace res)
     = (if interface_isValid sys
        then [DBusCall "org.gnome.Shell" "Eval" r] else []) /\
     (In (Log WARNING "Invalid dbus interface on Gnome") (trace res)
      <-> interface_isValid sys = false) /\
     (In (Log ERROR "Not connected to dbus!") (trace res)
      <-> bus_isConnected sys = false) /\
     (In (Log ERROR "Failed move Window!") (trace res)
      <-> interface_isValid sys = true /\ call_errorName sys "Eval" = true)
   else
     res = (w, [], inl (TypeError "QtDBus should only be called on Linux systems!"))).
Proof.
  unfold qtdbus_usable, _move_active_window_to_position_on_gnome,
    bind, tell, when, raise, ret, final, trace, outcome.
  destruct (HAS_QTDBUS sys), (platform_is_linux sys); cbn;
    try (split; reflexivity).
  destruct (bus_isConnected sys), (interface_isValid sys); cbn;
    try destruct (call_errorName sys "Eval"); cbn;
    repeat split; close_cases.
Qed.

(** X11.  The KDE helper raises [TypeError] exactly when QtDBus cannot be
    used, before it has done anything.  Otherwise it creates and writes the
    script file first: if the creation fails it raises [OSError] with
    nothing done, and if the writing fails it raises [OSError] with the
    created file left behind and no call on the bus.  With the file
    written, it calls [loadScript] and then [start] if the interface is
    valid and nothing if it is not, whatever the bus answers, and then
    removes the file as its last action; if the removal fails it raises
    [OSError] after the calls and the file stays.  It never touches the
    window. *)
Theorem kde_helper_behaviour (sys : SystemInfo) (r : Rect) (w : Window) :
  let res := _move_active_window_to_position_on_kde sys r w in
  final res = w /\
  (if qtdbus_usable sys then
     if tempfile_create_fails sys then
       res = (w, [], inl OSError)
     else if tempfile_write_fails sys then
       res = (w, [TempFileCreate], inl OSError)
     else
       hd_error (trace res) = Some TempFileCreate /\
       bus_calls (trace res)
       = (if interface_isValid sys
          then [DBusCall "org.kde.KWin" "loadScript" r;
                DBusCall "org.kde.KWin" "start" r]
          else []) /\
       (In (Log ERROR "Failed move Window!") (trace res)
        <-> interface_isValid sys = true /\
            (call_errorName sys "loadScript" = true \/
             call_errorName sys "start" = true)) /\
       (if unlink_fails sys then
          outcome res = inl OSError /\
          file_ops (trace res) = [TempFileCreate; TempFileWrite r]
        else
          outcome res = inr tt /\
          file_ops (trace res) = [TempFileCreate; TempFileWrite r; TempFileUnlink] /\
          last (trace res) Update = TempFileUnlink)
   else
     res = (w, [], inl (TypeError "QtDBus should only be called on Linux systems!"))).
Proof.
  unfold qtdbus_usable, _move_active_window_to_position_on_kde,
    bind, tell, when, raise, ret, final, trace, outcome.
  destruct (HAS_QTDBUS sys), (platform_is_linux sys); cbn;
    try (split; reflexivity).
  destruct (tempfile_create_fails sys); cbn; [split; reflexivity|].
  destruct (tempfile_write_fails sys); cbn; [split; reflexivity|].
  destruct (bus_isConnected sys), (interface_isValid sys), (unlink_fails sys); cbn;
    try destruct (call_errorName sys "loadScript"); cbn;
    try destruct (call_errorName sys "start"); cbn;
    repeat split; close_cases.
Qed.

(** X12.  A failing bus does not hold the workaround back.  Where QtDBus
    can be used and, on KDE, the operations on the script file succeed, the
    first activation of an unpositioned window on Wayland sets the
    positioned flag and emits [on_window_positioned] once, on every desktop
    environment and whether or not the session bus is connected, the
    interface valid or the call answered with an error; every later
    activation then does nothing, so the remote call is not tried again. *)
Theorem bus_failure_does_not_block_positioning (w : Window) (sys : SystemInfo)
    (Hwayland : display_manager_is_wayland sys = true)
    (Hunpositioned : is_positioned w = false)
    (Husable : qtdbus_usable sys = true)
    (Hfiles : desktop_environment sys = KDE ->
              tempfile_create_fails sys = false /\
              tempfile_write_fails sys = false /\ unlink_fails sys = false) :
  final (changeEvent ActivationChange sys true w) = set_is_positioned true w /\
  outcome (changeEvent ActivationChange sys true w) = inr tt /\
  emitted (trace (changeEvent ActivationChange sys true w))
  = [on_window_positioned] /\
  forall (sys' : SystemInfo) (active : bool),
    changeEvent ActivationChange sys' active
      (final (changeEvent ActivationChange sys true w))
    = (final (changeEvent ActivationChange sys true w),
       [Super "changeEvent"], inr tt).
Proof.
  pose proof (changeEvent_cases ActivationChange sys true w) as Hc.
  assert (Hf : helper_failure sys = None).
  { apply (proj1 (helper_failure_cases sys)). split; [intros _; exact Husable|].
    exact Hfiles. }
  unfold activation_applies in Hc. rewrite Hwayland, Hunpositioned, Hf in Hc.
  cbn [QEventType_eqb andb negb] in Hc.
  destruct Hc as (Hfin & Hout & Hem & _).
  repeat split; try assumption.
  intros sys' active. apply changeEvent_positioned. now rewrite Hfin.
Qed.

Lemma bus_failure_does_not_block_positioning_witness :
  display_manager_is_wayland wayland_kde_bus_down = true /\
  is_positioned idle_window = false /\
  qtdbus_usable wayland_kde_bus_down = true /\
  (desktop_environment wayland_kde_bus_down = KDE /\
   tempfile_create_fails wayland_kde_bus_down = false /\
   tempfile_write_fails wayland_kde_bus_down = false /\
   unlink_fails wayland_kde_bus_down = false) /\
  bus_isConnected wayland_kde_bus_down = false /\
  interface_isValid wayland_kde_bus_down = false /\
  is_positioned
    (final (changeEvent ActivationChange wayland_kde_bus_down true idle_window))
  = true.
Proof.
  split; [reflexivity|]. split; [reflexivity|]. split; [reflexivity|].
  split; [repeat split|]. split; [reflexivity|]. split; [reflexivity|].
  destruct (@bus_failure_does_not_block_positioning idle_window
              wayland_kde_bus_down eq_refl eq_refl eq_refl
              (fun _ => conj eq_refl (conj eq_refl eq_refl))) as (H & _).
  rewrite H. reflexivity.
Defined.

(** ** A fresh window, and what events never touch *)

Lemma handle_keeps_appearance (ev : Event) (w : Window) :
  color (final (handle ev w)) = color w /\
  ui_layer (final (handle ev w)) = ui_layer w.
Proof.
  destruct ev; unfold_handlers; split_branches; cbn; repeat split.
Qed.

Lemma run_keeps_appearance (evs : list Event) (w : Window) :
  color (fst (run w evs)) = color w /\
  ui_layer (fst (run w evs)) = ui_layer w.
Proof.
  revert w; induction evs as [|ev evs IH]; intro w.
  - repeat split.
  - rewrite run_cons. cbn [fst].
    destruct (IH (fst (step w ev))) as (H1 & H2). rewrite H1, H2.
    assert (Hs : fst (step w ev) = final (handle ev w)).
    { unfold step, final. destruct (handle ev w) as [[w' t] [e|u]]; reflexivity. }
    rewrite Hs. apply handle_keeps_appearance.
Qed.

Lemma paintEvent_idle (w : Window) :
  is_selecting w = false -> draw_debug_infos (ui_layer w) = false ->
  paintEvent w = (w, [Super "paintEvent"], inr tt).
Proof.
  intros Hsel Hdebug. unfold paintEvent, bind, tell, get, ret.
  rewrite Hsel, Hdebug. reflexivity.
Qed.

(** X13.  A window that construction yields starts idle: it is
    unpositioned and not selecting, its points are null, its overlay has
    the window's colour (the text of the settings value, None if there is
    none) and shows no debug text.  Its first paint draws nothing, Escape
    asks to cancel the capture, and a release of any button is ignored. *)
Theorem fresh_window_is_idle (screen : Screen) (st : Settings) (w : Window)
    (Hinit : snd (Window_init screen st) = inr w) :
  (is_positioned w = false /\ is_selecting w = false /\
   selection_start w = QPoint_null /\ selection_end w = QPoint_null) /\
  (settings w = st /\ screen_ w = screen /\
   color w = py_str (value st "color") /\
   ui_color (ui_layer w) = color w /\ draw_debug_infos (ui_layer w) = false) /\
  painted (trace (paintEvent w)) = [] /\
  emitted (snd (step w (KeyPress Key_Escape))) = [on_esc_key_pressed] /\
  (forall button pos,
      step w (MouseRelease button pos) = (w, [Super "mouseReleaseEvent"])).
Proof.
  pose proof (Window_init_cases screen st) as Hc.
  destruct (screenshot screen) as [img|]; [|congruence].
  destruct (width screen =? 0); [congruence|].
  rewrite Hc in Hinit. injection Hinit as <-.
  split; [repeat split|]. split; [repeat split|]. split; [reflexivity|].
  split; [reflexivity|]. intros button pos. now apply step_release_idle.
Qed.

Lemma fresh_window_is_idle_witness :
  snd (Window_init (example_screen (PyFloat.of_int 1)) (fun _ => None))
  = inr (mkWindow (fun _ => None) (example_screen (PyFloat.of_int 1)) "None"
                  false QPoint_null QPoint_null false (PyFloat.of_int 2)
                  (mkUiLayerLabel "None" false)) /\
  color (mkWindow (fun _ => None) (example_screen (PyFloat.of_int 1)) "None"
                  false QPoint_null QPoint_null false (PyFloat.of_int 2)
                  (mkUiLayerLabel "None" false))
  = py_str (value (fun _ => None) "color").
Proof.
  split; [reflexivity|].
  apply (@fresh_window_is_idle (example_screen (PyFloat.of_int 1))
           (fun _ => None) _ eq_refl).
Defined.

(** X14.  No event changes how the overlay looks: through any sequence of
    events the window's colour and the overlay's colour and debug switch
    stay as they are.  So a window that construction yields never paints
    debug text, whatever events it gets, and keeps the overlay in the
    window's colour. *)
Theorem events_keep_overlay_attributes (w : Window) (evs : list Event) :
  color (fst (run w evs)) = color w /\
  ui_layer (fst (run w evs)) = ui_layer w /\
  (forall screen st,
      snd (Window_init screen st) = inr w ->
      draw_debug_infos (ui_layer (fst (run w evs))) = false /\
      ui_color (ui_layer (fst (run w evs))) = color (fst (run w evs)) /\
      texts (painted (trace (paintEvent (fst (run w evs))))) = []).
Proof.
  destruct (run_keeps_appearance evs w) as [Hcol Hui].
  split; [exact Hcol|]. split; [exact Hui|].
  intros screen st Hinit.
  pose proof (Window_init_cases screen st) as Hc.
  destruct (screenshot screen) as [img|]; [|congruence].
  destruct (width screen =? 0); [congruence|].
  rewrite Hc in Hinit. injection Hinit as Hw.
  assert (Hd : draw_debug_infos (ui_layer (fst (run w evs))) = false)
    by (rewrite Hui, <- Hw; reflexivity).
  split; [exact Hd|]. split; [rewrite Hui, Hcol, <- Hw; reflexivity|].
  unfold paintEvent, _draw_debug_infos, bind, tell, get, ret, when, lift, trace.
  rewrite Hd.
  destruct (is_selecting (fst (run w evs))); cbn; [|reflexivity].
  destruct (CaptureMode_getitem _); reflexivity.
Qed.

Lemma events_keep_overlay_attributes_witness :
  texts (painted (trace (paintEvent
    (fst (run idle_window (drag (mkQPoint 1 1) [mkQPoint 5 5] (mkQPoint 9 9)
                             ++ [MousePress LeftButton (mkQPoint 2 2)])))))) = [].
Proof.
  destruct (events_keep_overlay_attributes idle_window
              (drag (mkQPoint 1 1) [mkQPoint 5 5] (mkQPoint 9 9)
                 ++ [MousePress LeftButton (mkQPoint 2 2)])) as (_ & _ & H).
  apply (H (example_screen (PyFloat.of_int 1)) (sample_settings "parse") eq_refl).
Defined.

(** ** What the overlay paints *)

Lemma normalized_idem (r : QRect) : normalized (normalized r) = normalized r.
Proof.
  rewrite !normalized_cases. cbn [x1 x2 y1 y2].
  destruct (Z.ltb_spec (x2 r) (x1 r)), (Z.ltb_spec (y2 r) (y1 r));
    repeat match goal with
           | |- context [?a <? ?b] => destruct (Z.ltb_spec a b)
           end;
    f_equal; lia.
Qed.

(** X15.  The overlay paints nothing exactly when no drag is in progress
    and the debug text is off.  It closes its painter exactly when a drag is
    in progress and the capture mode names a member of [CaptureMode]: a
    paint that only shows the debug text, or that fails on the capture mode,
    opens a painter and never calls its end. *)
Theorem painter_is_opened_and_closed (w : Window) :
  (painted (trace (paintEvent w)) = [] <->
   is_selecting w = false /\ draw_debug_infos (ui_layer w) = false) /\
  (In (Painter PainterBegin) (trace (paintEvent w)) <->
   is_selecting w = true \/ draw_debug_infos (ui_layer w) = true) /\
  (In (Painter PainterEnd) (trace (paintEvent w)) <->
   is_selecting w = true /\
   exists m, CaptureMode_getitem (upper (py_str (value (settings w) "mode")))
             = inr m).
Proof.
  unfold paintEvent, _draw_debug_infos, bind, tell, get, ret, when, lift, trace.
  destruct (is_selecting w), (draw_debug_infos (ui_layer w)); cbn;
    try destruct (CaptureMode_getitem (upper (py_str (value (settings w) "mode"))))
      as [e|m]; cbn;
    repeat split; close_cases;
    try (now exists m);
    try (intros; split; [reflexivity | now exists m]);
    try (intros [_ [m' Hm']]; discriminate Hm').
Qed.

(** X16.  During a drag the overlay outlines the live selection: after a
    left press at [P0] and any pointer moves, a paint draws exactly one
    rectangle, the normalized rectangle between [P0] and the latest pointer
    position, and a release at that position reports this same rectangle,
    scaled. *)
Theorem overlay_outlines_live_selection (w : Window) (P0 : QPoint)
    (moves : list QPoint) :
  let w1 := fst (run w (MousePress LeftButton P0 :: map MouseMove moves)) in
  let r := normalized (QRect_of_points P0 (last moves P0)) in
  (forall c, In (Painter (DrawRect c)) (trace (paintEvent w1)) <-> c = r) /\
  In (Painter (SetPenDashLine (ui_color (ui_layer w)) 2)) (trace (paintEvent w1)) /\
  emitted (snd (step w1 (MouseRelease LeftButton (last moves P0))))
  = [on_region_selected
       (Rect_scaled (Rect_of_coords (getCoords r)) (scale_factor w),
        index (screen_ w))].
Proof.
  cbv zeta. rewrite run_cons, step_press_left. cbn [fst].
  destruct (run_moves_state moves (after_press P0 w)) as (Hst & _ & _).
  rewrite Hst. cbn [selection_end after_press set_selection_end set_is_selecting].
  split; [|split].
  - intro c.
    unfold paintEvent, _draw_debug_infos, bind, tell, get, ret, when, lift, trace.
    cbn.
    destruct (draw_debug_infos (ui_layer w)); cbn;
      destruct (CaptureMode_getitem _);
      cbn;
      (split; intro H;
       [ in_trace H; injection H as H; rewrite <- H; reflexivity
       | subst c; repeat first [left; reflexivity | right] ]).
  - unfold paintEvent, _draw_debug_infos, bind, tell, get, ret, when, lift, trace.
    cbn.
    destruct (draw_debug_infos (ui_layer w)); cbn;
      destruct (CaptureMode_getitem _);
      cbn; repeat first [left; reflexivity | right].
  - rewrite step_release_during_drag by reflexivity. reflexivity.
Qed.

(** X17.  With the debug text on, every paint writes the same six lines,
    at x = 25 and y = 25, 50, ..., 150, whether or not a drag is in progress
    and even when the paint then fails on the capture mode: the logical
    screen size, the screenshot size, the normalized selection (normalizing
    it a second time changes nothing), the selection scaled by the scale
    factor, the scale factor and the device pixel ratio.  The scaled
    selection is the rectangle a release at the current end point would
    report. *)
Theorem debug_text_lines (w : Window)
    (Hdebug : draw_debug_infos (ui_layer w) = true) :
  let r := normalized (QRect_of_points (selection_start w) (selection_end w)) in
  let selection := Rect_of_coords (getCoords r) in
  texts (painted (trace (paintEvent w)))
  = [(25, 25, TxtQScreen (width (screen_ w), height (screen_ w)));
     (25, 50, TxtImage match screenshot (screen_ w) with
                       | Some img => (img_width img, img_height img)
                       | None => (-1, -1)
                       end);
     (25, 75, TxtPosQScreen selection);
     (25, 100, TxtPosImage (Rect_scaled selection (scale_factor w)));
     (25, 125, TxtScaleFactor (scale_factor w));
     (25, 150, TxtDPR (device_pixel_ratio (screen_ w)))] /\
  (Rect_scaled selection (scale_factor w), index (screen_ w))
  = selected_region w (selection_start w) (selection_end w).
Proof.
  cbv zeta. split; [|reflexivity].
  unfold paintEvent, _draw_debug_infos, bind, tell, get, ret, when, lift, trace.
  rewrite Hdebug, normalized_idem.
  destruct (is_selecting w); cbn; [destruct (CaptureMode_getitem _)|];
    reflexivity.
Qed.

Lemma debug_text_lines_witness :
  draw_debug_infos (ui_layer blind_debug_window) = true /\
  List.length (texts (painted (trace (paintEvent blind_debug_window)))) = 6%nat.
Proof.
  split; [reflexivity|].
  rewrite (proj1 (@debug_text_lines blind_debug_window eq_refl)). reflexivity.
Defined.

(** X18.  The mode indicator follows the capture mode without regard to
    case: during a drag the overlay paints the icon :parse exactly when the
    mode, in upper case, is PARSE, and the icon :raw exactly when it is RAW;
    the icon is 24 by 24 and sits 24 to the left of the right edge and 30
    above the top edge of the normalized selection.  Outside a drag no icon
    is painted. *)
Theorem mode_indicator (w : Window) (icon : string) (x y a b : Z) :
  let r := normalized (QRect_of_points (selection_start w) (selection_end w)) in
  let mode := upper (py_str (value (settings w) "mode")) in
  In (Painter (IconPaint icon x y a b)) (trace (paintEvent w)) <->
  is_selecting w = true /\
  (icon = ":parse" /\ mode = "PARSE" \/ icon = ":raw" /\ mode = "RAW") /\
  x = x2 r - 24 /\ y = y1 r - 30 /\ a = 24 /\ b = 24.
Proof.
  cbv zeta.
  unfold paintEvent, _draw_debug_infos, bind, tell, get, ret, when, lift, trace,
    CaptureMode_getitem, QRect_right, QRect_top.
  destruct (is_selecting w), (draw_debug_infos (ui_layer w));
    cbn [negb orb fst snd app];
    try (split; [intro H; in_trace H | intros [H _]; discriminate H]);
    destruct (String.eqb_spec (upper (py_str (value (settings w) "mode"))) "RAW")
      as [Hraw|Hraw];
    try destruct (String.eqb_spec (upper (py_str (value (settings w) "mode"))) "PARSE")
      as [Hparse|Hparse];
    cbn [fst snd app];
    (split;
     [ intro H; in_trace H; injection H as <- <- <- <- <-;
       repeat split; auto
     | intros (_ & [[-> Hm]|[-> Hm]] & -> & -> & -> & ->);
       try congruence; cbn; repeat first [left; reflexivity | right] ]).
Qed.

(** X19.  Pointer moves only track the end point: after any moves the end
    point is the last position, no drag has started or ended, nothing was
    emitted, and every move has requested a redraw, drag or not.  If no
    drag is in progress and the debug text is off, such a redraw paints
    nothing. *)
Theorem moves_track_end_point (w : Window) (moves : list QPoint) :
  fst (run w (map MouseMove moves))
  = set_selection_end (last moves (selection_end w)) w /\
  emitted (snd (run w (map MouseMove moves))) = [] /\
  redraws (snd (run w (map MouseMove moves))) = List.length moves /\
  (is_selecting w = false -> draw_debug_infos (ui_layer w) = false ->
   painted (trace (paintEvent (fst (run w (map MouseMove moves))))) = []).
Proof.
  destruct (run_moves_state moves w) as (Hst & Hem & _).
  split; [exact Hst|]. split; [exact Hem|]. split.
  - clear Hst Hem. revert w; induction moves as [|p moves IH]; intro w;
      [reflexivity|].
    cbn [map]. rewrite run_cons, step_move. cbn [fst snd app redraws length].
    now rewrite IH.
  - intros Hsel Hdebug. rewrite Hst. rewrite paintEvent_idle; [reflexivity| |];
      assumption.
Qed.

Lemma moves_track_end_point_witness :
  is_selecting idle_window = false /\
  draw_debug_infos (ui_layer idle_window) = false /\
  painted (trace (paintEvent
    (fst (run idle_window (map MouseMove [mkQPoint 3 4; mkQPoint 5 6]))))) = [].
Proof.
  split; [reflexivity|]. split; [reflexivity|].
  destruct (moves_track_end_point idle_window [mkQPoint 3 4; mkQPoint 5 6])
    as (_ & _ & _ & H).
  apply H; reflexivity.
Defined.

(** ** Going fullscreen *)

(** X20.  [set_fullscreen] pins the minimum and the maximum size exactly
    when the desktop environment is not Unity, after it has set the
    geometry; in every case it ends with the request for fullscreen, never
    raises and leaves the window's attributes alone. *)
Theorem set_fullscreen_pins_size_except_on_unity (sys : SystemInfo) (w : Window) :
  final (set_fullscreen sys w) = w /\
  outcome (set_fullscreen sys w) = inr tt /\
  last (trace (set_fullscreen sys w)) Update = QtCall "showFullScreen" /\
  (In (QtCall "setMinimumSize") (trace (set_fullscreen sys w))
   <-> desktop_environment sys <> UNITY) /\
  (In (QtCall "setMaximumSize") (trace (set_fullscreen sys w))
   <-> desktop_environment sys <> UNITY) /\
  filter (fun e => match e with
                   | QtCall "setGeometry" | QtCall "setMinimumSize"
                   | QtCall "setMaximumSize" | QtCall "showFullScreen" => true
                   | _ => false
                   end) (trace (set_fullscreen sys w))
  = (if DesktopEnvironment_eqb (desktop_environment sys) UNITY
     then [QtCall "setGeometry"; QtCall "showFullScreen"]
     else [QtCall "setGeometry"; QtCall "setMinimumSize";
           QtCall "setMaximumSize"; QtCall "showFullScreen"]).
Proof.
  unfold set_fullscreen, bind, tell, when, ret, final, trace, outcome.
  destruct (desktop_environment sys); cbn; repeat split; close_cases;
    try (intro H; in_trace H).
Qed.

(** ** How often the positioning workaround runs *)

Lemma focus_requests_app (t1 t2 : list Effect) :
  focus_requests (t1 ++ t2) = (focus_requests t1 + focus_requests t2)%nat.
Proof. unfold focus_requests. now rewrite filter_app, length_app. Qed.

Lemma failed_attempts_app (t1 t2 : list Effect) :
  failed_attempts (t1 ++ t2) = (failed_attempts t1 + failed_attempts t2)%nat.
Proof. unfold failed_attempts. now rewrite filter_app, length_app. Qed.

(** Events other than [Change] take no part in the workaround, whether
    they raise or not. *)
Lemma step_other_positioning (w : Window) (ev : Event) :
  (forall type sys active, ev <> Change type sys active) ->
  is_positioned (fst (step w ev)) = is_positioned w /\
  positioning_effects (snd (step w ev)) = [] /\
  positioned_count (snd (step w ev)) = 0%nat /\
  focus_requests (snd (step w ev)) = 0%nat /\
  failed_attempts (snd (step w ev)) = 0%nat.
Proof.
  intro Hev.
  destruct ev; try (exfalso; eapply Hev; reflexivity);
    unfold step; unfold_handlers; unfold CaptureMode_getitem;
    split_branches; cbn; repeat split.
Qed.

(** One turn of the event loop either leaves the flag as it is, each focus
    request being one failed attempt, or completes the workaround. *)
Lemma step_positioning (w : Window) (ev : Event) :
  (is_positioned w = true ->
   is_positioned (fst (step w ev)) = true /\
   positioning_effects (snd (step w ev)) = [] /\
   positioned_count (snd (step w ev)) = 0%nat /\
   focus_requests (snd (step w ev)) = 0%nat /\
   failed_attempts (snd (step w ev)) = 0%nat) /\
  (is_positioned w = false ->
   (is_positioned (fst (step w ev)) = false /\
    positioned_count (snd (step w ev)) = 0%nat /\
    focus_requests (snd (step w ev)) = failed_attempts (snd (step w ev)))
   \/
   (is_positioned (fst (step w ev)) = true /\
    positioned_count (snd (step w ev)) = 1%nat /\
    focus_requests (snd (step w ev)) = 1%nat /\
    failed_attempts (snd (step w ev)) = 0%nat)).
Proof.
  destruct ev as [key|button pos|pos|button pos|type sys active|size| |].
  5: { rewrite step_of_changeEvent. cbn [fst snd]. split.
       - intro Hp. rewrite (changeEvent_positioned type sys active w Hp).
         cbn. now repeat split.
       - intro Hp.
         pose proof (changeEvent_cases type sys active w) as Hc.
         destruct (helper_failure_cases sys) as [_ Hsome].
         destruct (activation_applies type sys active w).
         + destruct (helper_failure sys) as [e|] eqn:Hf.
           * destruct Hc as (Hfin & Hout & _ & Hfoc & Hcnt & _).
             left. rewrite Hfin, Hout, positioned_count_app, focus_requests_app,
               failed_attempts_app, Hfoc, Hcnt.
             split; [exact Hp|]. split; [reflexivity|].
             assert (Hfail : failed_attempts (trace (changeEvent type sys active w))
                             = 0%nat).
             { clear - Hp. unfold changeEvent, _position_windows_on_wayland,
                 _move_active_window_to_position_on_gnome,
                 _move_active_window_to_position_on_kde,
                 bind, tell, get, modify, when, raise, ret, trace.
               split_branches; reflexivity. }
             rewrite Hfail.
             destruct (proj1 (Hsome e) eq_refl) as [(_ & _ & ->)|(_ & _ & _ & ->)];
               reflexivity.
           * destruct Hc as (Hfin & Hout & _ & Hfoc & Hcnt & _).
             right. rewrite Hfin, Hout, app_nil_r, Hfoc, Hcnt.
             repeat split.
             unfold changeEvent, _position_windows_on_wayland,
               _move_active_window_to_position_on_gnome,
               _move_active_window_to_position_on_kde,
               bind, tell, get, modify, when, raise, ret, trace.
             split_branches; reflexivity.
         + rewrite Hc. cbn. left. now repeat split. }
  all: match goal with
       | |- context [step ?w0 ?ev] =>
           assert (Hev : forall type sys active, ev <> Change type sys active)
             by (intros; discriminate);
           destruct (step_other_positioning w0 Hev) as (H1 & H2 & H3 & H4 & H5)
       end;
    (split; intro Hp;
     [ rewrite H1, H2, H3, H4, H5; now repeat split
     | left; rewrite H1, H3, H4, H5; now repeat split ]).
Qed.

Lemma run_positioning (evs : list Event) (w : Window) :
  (positioned_count (snd (run w evs)) <= 1)%nat /\
  focus_requests (snd (run w evs))
  = (positioned_count (snd (run w evs)) + failed_attempts (snd (run w evs)))%nat /\
  (is_positioned (fst (run w evs)) = true <->
   is_positioned w = true \/ positioned_count (snd (run w evs)) = 1%nat) /\
  (is_positioned w = true ->
   is_positioned (fst (run w evs)) = true /\
   positioning_effects (snd (run w evs)) = [] /\
   positioned_count (snd (run w evs)) = 0%nat).
Proof.
  revert w; induction evs as [|ev evs IH]; intro w.
  - cbn. repeat split; try lia; try tauto. intros [H|H]; [exact H|discriminate H].
  - rewrite run_cons. cbn [fst snd].
    rewrite positioned_count_app, focus_requests_app, failed_attempts_app,
      positioning_effects_app.
    destruct (step_positioning w ev) as [Hpos Hneg].
    destruct (IH (fst (step w ev))) as (I1 & I2 & I3 & I4).
    destruct (is_positioned w) eqn:Hp.
    + destruct (Hpos eq_refl) as (S1 & S2 & S3 & S4 & S5).
      destruct (I4 S1) as (J1 & J2 & J3).
      rewrite S2, S3, S4, S5, J2, J3, I2, J3. cbn.
      repeat split; try lia; auto.
    + destruct (Hneg eq_refl) as [(S1 & S3 & S4)|(S1 & S3 & S4 & S5)].
      * rewrite S3, S4, I2. cbn [Nat.add].
        split; [exact I1|]. split; [lia|]. split; [|discriminate].
        rewrite I3, S1. tauto.
      * destruct (I4 S1) as (J1 & J2 & J3).
        rewrite S3, S4, S5, I2, J3. cbn.
        split; [lia|]. split; [reflexivity|]. split; [|discriminate].
        split; [now right | intros _; exact J1].
Qed.

(** Where QtDBus is missing, the helper raises before it reaches the bus:
    the activation has requested the focus, the flag stays unset and
    nothing is emitted. *)
Lemma activation_without_qtdbus_raises :
  step idle_window (Change ActivationChange wayland_gnome_no_dbus true)
  = (idle_window,
     [Super "changeEvent"; SetFocus; Log DEBUG "Move window %s to %s";
      Uncaught (TypeError "QtDBus should only be called on Linux systems!")]).
Proof. reflexivity. Qed.

(** C7, as the claim has it, fails: the workaround can run more than once.
    On KDE, where the script file cannot be removed, two activations both
    request the focus and both make the remote calls, and the flag is still
    unset; on Gnome without QtDBus three activations request the focus
    three times. *)
Lemma workaround_runs_again_counterexample :
  (is_positioned
     (fst (run idle_window
             [Change ActivationChange wayland_kde_unlink_fails true;
              Change ActivationChange wayland_kde_unlink_fails true])) = false /\
   focus_requests
     (snd (run idle_window
             [Change ActivationChange wayland_kde_unlink_fails true;
              Change ActivationChange wayland_kde_unlink_fails true])) = 2%nat /\
   bus_calls
     (snd (run idle_window
             [Change ActivationChange wayland_kde_unlink_fails true;
              Change ActivationChange wayland_kde_unlink_fails true]))
   = [DBusCall "org.kde.KWin" "loadScript" (mkRect 0 0 1000 800);
      DBusCall "org.kde.KWin" "start" (mkRect 0 0 1000 800);
      DBusCall "org.kde.KWin" "loadScript" (mkRect 0 0 1000 800);
      DBusCall "org.kde.KWin" "start" (mkRect 0 0 1000 800)]) /\
  (is_positioned
     (fst (run idle_window
             [Change ActivationChange wayland_gnome_no_dbus true;
              Change ActivationChange wayland_gnome_no_dbus true;
              Change ActivationChange wayland_gnome_no_dbus true])) = false /\
   focus_requests
     (snd (run idle_window
             [Change ActivationChange wayland_gnome_no_dbus true;
              Change ActivationChange wayland_gnome_no_dbus true;
              Change ActivationChange wayland_gnome_no_dbus true])) = 3%nat).
Proof.
  repeat split.
Qed.

(** C7, amended.  The positioning workaround completes at most once per
    window: whatever events arrive, [on_window_positioned] is emitted at
    most once; the positioned flag only goes from unset to set, and it is
    set exactly by the run that emits the signal; once it is set no later
    event requests the focus, touches the script file, calls the bus or
    changes the flag, and a later activation only calls its parent class.
    The workaround can start more often: an activation that raises leaves
    the window as it was and emits nothing, so the next activation starts
    it again, and the focus requests of a sequence are the completing run,
    if there is one, plus one for every attempt that failed. *)
Theorem positioning_completes_at_most_once (w : Window) (evs : list Event) :
  (positioned_count (snd (run w evs)) <= 1)%nat /\
  focus_requests (snd (run w evs))
  = (positioned_count (snd (run w evs)) + failed_attempts (snd (run w evs)))%nat /\
  (is_positioned (fst (run w evs)) = true <->
   is_positioned w = true \/ positioned_count (snd (run w evs)) = 1%nat) /\
  (is_positioned w = true ->
   is_positioned (fst (run w evs)) = true /\
   positioning_effects (snd (run w evs)) = []) /\
  (forall type sys active,
      is_positioned w = true ->
      changeEvent type sys active w = (w, [Super "changeEvent"], inr tt)) /\
  (forall type sys active e,
      outcome (changeEvent type sys active w) = inl e ->
      final (changeEvent type sys active w) = w /\
      emitted (trace (changeEvent type sys active w)) = [] /\
      focus_requests (trace (changeEvent type sys active w)) = 1%nat).
Proof.
  destruct (run_positioning evs w) as (H1 & H2 & H3 & H4).
  split; [exact H1|]. split; [exact H2|]. split; [exact H3|].
  split; [|split].
  - intro Hp. destruct (H4 Hp) as (J1 & J2 & _). now split.
  - intros type sys active Hp. now apply changeEvent_positioned.
  - intros type sys active e Hout.
    pose proof (changeEvent_cases type sys active w) as Hc.
    destruct (activation_applies type sys active w).
    + destruct (helper_failure sys) as [e'|].
      * destruct Hc as (Hfin & _ & Hem & Hfoc & _). now repeat split.
      * destruct Hc as (_ & Hout' & _). rewrite Hout' in Hout. discriminate Hout.
    + rewrite Hc in Hout. discriminate Hout.
Qed.

Lemma positioning_completes_at_most_once_witness :
  (is_positioned (set_is_positioned true idle_window) = true /\
   positioning_effects
     (snd (run (set_is_positioned true idle_window)
               [Change ActivationChange wayland_gnome true;
                Change ActivationChange wayland_kde_unlink_fails true])) = []) /\
  (outcome (changeEvent ActivationChange wayland_kde_unlink_fails true idle_window)
   = inl OSError /\
   final (changeEvent ActivationChange wayland_kde_unlink_fails true idle_window)
   = idle_window).
Proof.
  split.
  - split; [reflexivity|].
    destruct (positioning_completes_at_most_once
                (set_is_positioned true idle_window)
                [Change ActivationChange wayland_gnome true;
                 Change ActivationChange wayland_kde_unlink_fails true])
      as (_ & _ & _ & H & _).
    apply H. reflexivity.
  - split; [reflexivity|].
    destruct (positioning_completes_at_most_once idle_window [])
      as (_ & _ & _ & _ & _ & H).
    apply (H ActivationChange wayland_kde_unlink_fails true OSError eq_refl).
Defined.

(** ** The region a drag reports *)

(** C1, as the claim has it, fails: for a drag towards the top left the
    region is not the scaled axis-aligned rectangle spanned by the press and
    the release point.  From (300, 250) to (100, 100), with scale factor
    2.0, the window reports (202, 202, 598, 498) and not
    (200, 200, 600, 500). *)
Lemma reverse_drag_is_inset_counterexample :
  emitted (snd (run idle_window (drag (mkQPoint 300 250) [] (mkQPoint 100 100))))
  = [on_region_selected (mkRect 202 202 598 498, 0)] /\
  (Rect_scaled (axis_aligned_span (mkQPoint 300 250) (mkQPoint 100 100))
               (scale_factor idle_window),
   index (screen_ idle_window))
  = (mkRect 200 200 600 500, 0) /\
  emitted (snd (run idle_window (drag (mkQPoint 300 250) [] (mkQPoint 100 100))))
  <> [on_region_selected
        (Rect_scaled (axis_aligned_span (mkQPoint 300 250) (mkQPoint 100 100))
                     (scale_factor idle_window),
         index (screen_ idle_window))].
Proof.
  split; [reflexivity|]. split; [reflexivity|]. discriminate.
Qed.

(** C1, amended.  A drag (left press at [P0], any moves, left release at
    [Pn]) emits exactly one signal, [on_region_selected], with the index of
    the screen, whatever the moves, and leaves the window in its idle
    selection state.  The rectangle is built axis by axis from the press
    coordinate a and the release coordinate b, and then scaled by the
    window's scale factor: it runs from a to b where b is not less than a,
    and from b + 1 to a - 1 where b is less than a.  So a drag towards the
    bottom right reports the scaled axis-aligned rectangle spanned by the
    two points: on the screen of the example (1000 wide, screenshot 2000
    wide, index 0) a drag from (100, 100) to (300, 250) reports
    (200, 200, 600, 500) and index 0. *)
Theorem drag_emits_one_region (w : Window) (P0 Pn : QPoint)
    (moves : list QPoint) :
  emitted (snd (run w (drag P0 moves Pn)))
  = [on_region_selected
       (Rect_scaled
          (mkRect (if px Pn <? px P0 then px Pn + 1 else px P0)
                  (if py Pn <? py P0 then py Pn + 1 else py P0)
                  (if px Pn <? px P0 then px P0 - 1 else px Pn)
                  (if py Pn <? py P0 then py P0 - 1 else py Pn))
          (scale_factor w),
        index (screen_ w))] /\
  (is_selecting (fst (run w (drag P0 moves Pn))) = false /\
   selection_start (fst (run w (drag P0 moves Pn))) = QPoint_null /\
   selection_end (fst (run w (drag P0 moves Pn))) = QPoint_null /\
   scale_factor (fst (run w (drag P0 moves Pn))) = scale_factor w) /\
  (forall moves' : list QPoint,
      emitted (snd (run w (drag P0 moves' Pn)))
      = emitted (snd (run w (drag P0 moves Pn)))) /\
  (px P0 <= px Pn -> py P0 <= py Pn ->
   emitted (snd (run w (drag P0 moves Pn)))
   = [on_region_selected
        (Rect_scaled (axis_aligned_span P0 Pn) (scale_factor w),
         index (screen_ w))]) /\
  (forall (dpr : float) (st : Settings),
      exists w' : Window,
        snd (Window_init (example_screen dpr) st) = inr w' /\
        scale_factor w' = PyFloat.of_int 2 /\
        emitted (snd (run w' (drag (mkQPoint 100 100) moves (mkQPoint 300 250))))
        = [on_region_selected (mkRect 200 200 600 500, 0)]).
Proof.
  assert (G : forall (w0 : Window) (A B : QPoint) (ms : list QPoint),
             emitted (snd (run w0 (drag A ms B)))
             = [on_region_selected
                  (Rect_scaled
                     (mkRect (if px B <? px A then px B + 1 else px A)
                             (if py B <? py A then py B + 1 else py A)
                             (if px B <? px A then px A - 1 else px B)
                             (if py B <? py A then py A - 1 else py B))
                     (scale_factor w0),
                   index (screen_ w0))]).
  { intros w0 A B ms. destruct (run_drag w0 A B ms) as (t & Ht & Hem & _).
    rewrite Ht, emitted_app, Hem. cbn [app emitted]. unfold selected_region.
    rewrite normalized_cases. reflexivity. }
  split; [apply G|]. split; [|split; [|split]].
  - destruct (run_drag w P0 Pn moves) as (t & _ & _ & _ & Hfin).
    rewrite Hfin. repeat split.
  - intro moves'. now rewrite !G.
  - intros Hx Hy. rewrite G. unfold axis_aligned_span.
    destruct (Z.ltb_spec (px Pn) (px P0)), (Z.ltb_spec (py Pn) (py P0)); try lia.
    now rewrite !Z.min_l, !Z.max_r by lia.
  - intros dpr st. eexists. split; [reflexivity|]. split; [reflexivity|].
    rewrite G. reflexivity.
Qed.

Lemma drag_emits_one_region_witness :
  100 <= 300 /\ 100 <= 250 /\
  emitted (snd (run idle_window
                  (drag (mkQPoint 100 100) [mkQPoint 500 20] (mkQPoint 300 250))))
  = [on_region_selected
       (Rect_scaled (axis_aligned_span (mkQPoint 100 100) (mkQPoint 300 250))
                    (scale_factor idle_window),
        index (screen_ idle_window))].
Proof.
  split; [lia|]. split; [lia|].
  destruct (drag_emits_one_region idle_window (mkQPoint 100 100)
              (mkQPoint 300 250) [mkQPoint 500 20]) as (_ & _ & _ & H & _).
  apply H; cbn; lia.
Defined.
